(** * RAGent: the helper layer of [utils.py]

    A shallow embedding of [src/utils.py]: the chat transport
    ([chat_request]) and the four wrappers built on it ([call_rag],
    [call_tavily_web_search], [assess_confidence],
    [synthesize_information]), with the parts of Python they rely on
    ([str] methods, [float], [json.loads], subscripting, exceptions).

    Conventions of the model.
    - A Python [str] is a list of Unicode code points.
    - A Python [float] is a binary64 number ([spec_float] with precision 53
      and exponent bound 1024); decimal text is converted with correct
      rounding, as CPython does.
    - An operation that can raise returns a [result]; an operation that
      reaches the network returns the list of outbound calls it made
      together with its [result].
    - The chat endpoint and the search provider are functions from the
      request to what the client library gives back (a response or an
      exception).
    - Logging has no influence on control flow and is left out.
    - Only instances of [Exception] are modelled; interpreter limits
      (recursion depth, integer digit limit, memory) and asynchronous
      signals are outside the model. *)

From Stdlib Require Import String Ascii ZArith NArith Bool List Lia.
From Stdlib Require Import Floats.SpecFloat.
Import ListNotations.

Set Implicit Arguments.

(* ================================================================= *)
(** ** Python strings *)

Module PyStr.

(** A code point. *)
Definition char := N.

(** A Python [str]. *)
Definition str := list char.

(** A source literal (ASCII text). *)
Definition lit (s : string) : str :=
  List.map N_of_ascii (list_ascii_of_string s).
Arguments lit s%_string.

(** The double quote, which a Rocq literal cannot hold. *)
Definition dquote : str := [34%N].

Definition chr (a : ascii) : char := N_of_ascii a.
Arguments chr a%_char.

Fixpoint str_eqb (a b : str) : bool :=
  match a, b with
  | [], [] => true
  | x :: a', y :: b' => N.eqb x y && str_eqb a' b'
  | _, _ => false
  end.

(** [s.startswith(p)] *)
Fixpoint startswith (p s : str) : bool :=
  match p, s with
  | [], _ => true
  | x :: p', y :: s' => N.eqb x y && startswith p' s'
  | _ :: _, [] => false
  end.

(** [sub in s] *)
Fixpoint contains (sub s : str) : bool :=
  startswith sub s ||
  match s with
  | [] => false
  | _ :: s' => contains sub s'
  end.

(** The text before and after the first occurrence of [sep]
    ([s.partition(sep)] when [sep] occurs). *)
Fixpoint cut (sep s : str) : option (str * str) :=
  if startswith sep s then Some ([], skipn (length sep) s)
  else match s with
       | [] => None
       | c :: s' =>
         match cut sep s' with
         | Some (a, b) => Some (c :: a, b)
         | None => None
         end
       end.

(** The text before and after the last occurrence of [sep]
    ([s.rpartition(sep)] when [sep] occurs). *)
Fixpoint rcut (sep s : str) : option (str * str) :=
  match s with
  | [] => None
  | c :: s' =>
    match rcut sep s' with
    | Some (a, b) => Some (c :: a, b)
    | None => if startswith sep s then Some ([], skipn (length sep) s)
              else None
    end
  end.

(** [s.split(sep, maxsplit)] for a non-empty [sep]. *)
Fixpoint split_max (maxsplit : nat) (sep s : str) : list str :=
  match maxsplit with
  | O => [s]
  | S n =>
    match cut sep s with
    | None => [s]
    | Some (a, b) => a :: split_max n sep b
    end
  end.

(** [s.split(sep)] for a non-empty [sep]: there are at most [len(s)]
    occurrences to split at. *)
Definition split (sep s : str) : list str := split_max (length s) sep s.

(** [s.rsplit(sep, 1)] for a non-empty [sep]. *)
Definition rsplit1 (sep s : str) : list str :=
  match rcut sep s with
  | None => [s]
  | Some (a, b) => [a; b]
  end.

(** [Py_UNICODE_ISSPACE]: what [str.strip()] removes. *)
Definition isspace (c : char) : bool :=
  ((9 <=? c) && (c <=? 13) || (28 <=? c) && (c <=? 32)
   || (c =? 133) || (c =? 160) || (c =? 5760)
   || (8192 <=? c) && (c <=? 8202)
   || (c =? 8232) || (c =? 8233) || (c =? 8239) || (c =? 8287)
   || (c =? 12288))%N.

Fixpoint lstrip_by (f : char -> bool) (s : str) : str :=
  match s with
  | c :: s' => if f c then lstrip_by f s' else s
  | [] => []
  end.

Definition rstrip_by (f : char -> bool) (s : str) : str :=
  rev (lstrip_by f (rev s)).

(** [s.strip()] *)
Definition strip (s : str) : str := rstrip_by isspace (lstrip_by isspace s).

End PyStr.
Export PyStr.

(* ================================================================= *)
(** ** Python floats *)

Module PyFloat.

Definition prec : Z := 53.
Definition emax : Z := 1024.

Definition float := spec_float.

(** The binary64 number nearest to [m * 10^e] (ties to even), signed by
    [neg]: what [strtod] returns for a decimal numeral with digits [m]. *)
Definition of_decimal (neg : bool) (m e : Z) : float :=
  match m with
  | Zpos p =>
    if (0 <=? e)%Z then
      match (m * 10 ^ e)%Z with
      | Zpos q => binary_round prec emax neg q 0
      | _ => S754_nan
      end
    else
      match (10 ^ (- e))%Z with
      | Zpos q => SFdiv prec emax (S754_finite neg p 0) (S754_finite false q 0)
      | _ => S754_nan
      end
  | _ => S754_zero neg
  end.

(** [a > b] *)
Definition gt (a b : float) : bool := SFltb b a.

(** [Py_ISSPACE]: the ASCII white space [float] strips. *)
Definition ascii_isspace (c : char) : bool :=
  ((9 <=? c) && (c <=? 13) || (c =? 32))%N.

Definition isdigit (c : char) : bool := ((48 <=? c) && (c <=? 57))%N.

(** The leading decimal digits of [s] and what follows them. *)
Fixpoint span_digits (s : str) : str * str :=
  match s with
  | c :: s' =>
    if isdigit c then let (ds, r) := span_digits s' in (c :: ds, r)
    else ([], s)
  | [] => ([], [])
  end.

Definition digits_value (ds : str) : Z :=
  fold_left (fun acc c => (acc * 10 + Z.of_N (c - 48))%Z) ds 0%Z.

(** An optional sign: whether it is a minus, and what follows. *)
Definition take_sign (s : str) : bool * str :=
  match s with
  | c :: r =>
    if (c =? 45)%N then (true, r)
    else if (c =? 43)%N then (false, r)
    else (false, s)
  | [] => (false, s)
  end.

(** The exponent part of a numeral: [e] or [E], an optional sign and at
    least one digit; [None] when that is not what [s] starts with. *)
Definition take_exponent (s : str) : option (Z * str) :=
  match s with
  | c :: r =>
    if ((c =? 101) || (c =? 69))%N then
      let (eneg, r1) := take_sign r in
      let (ds, r2) := span_digits r1 in
      match ds with
      | [] => None
      | _ => Some ((if eneg then - digits_value ds else digits_value ds)%Z, r2)
      end
    else None
  | [] => None
  end.

Definition tolower (c : char) : char :=
  if ((65 <=? c) && (c <=? 90))%N then (c + 32)%N else c.

(** [_Py_parse_inf_or_nan], after the sign. *)
Definition parse_inf_or_nan (neg : bool) (s : str) : option (float * str) :=
  let low := List.map tolower s in
  if startswith (lit "inf") low then
    if startswith (lit "inity") (skipn 3 low)
    then Some (S754_infinity neg, skipn 8 s)
    else Some (S754_infinity neg, skipn 3 s)
  else if startswith (lit "nan") low then Some (S754_nan, skipn 3 s)
  else None.

(** [_Py_dg_strtod], after the sign: digits, an optional point and more
    digits, with a digit on at least one side, then an optional exponent. *)
Definition parse_decimal (neg : bool) (s : str) : option (float * str) :=
  let (ip, r1) := span_digits s in
  let (fp, r2) := match r1 with
                  | c :: r => if (c =? 46)%N then span_digits r else ([], r1)
                  | [] => ([], r1)
                  end in
  match ip ++ fp with
  | [] => None
  | ds =>
    let (e, r3) := match take_exponent r2 with
                   | Some er => er
                   | None => (0%Z, r2)
                   end in
    Some (of_decimal neg (digits_value ds) (e - Z.of_nat (length fp)), r3)
  end.

(** [PyOS_string_to_double]: the whole of [s] must be a numeral. *)
Definition string_to_double (s : str) : option float :=
  let (neg, r) := take_sign s in
  match parse_inf_or_nan neg r with
  | Some (f, []) => Some f
  | Some (_, _ :: _) => None
  | None =>
    match parse_decimal neg r with
    | Some (f, []) => Some f
    | _ => None
    end
  end.

(** [_Py_string_to_number_with_underscores]: an underscore is accepted
    only between two digits, and is dropped. *)
Fixpoint drop_underscores (prev : char) (s : str) : option str :=
  match s with
  | [] => if (prev =? 95)%N then None else Some []
  | c :: s' =>
    if (c =? 95)%N then
      if isdigit prev then drop_underscores c s' else None
    else if (prev =? 95)%N && negb (isdigit c) then None
    else option_map (cons c) (drop_underscores c s')
  end.

Section OfStr.

(** [Py_UNICODE_TODECIMAL] above the ASCII range: the digit value of a
    code point of category Nd, from the interpreter's Unicode database. *)
Variable unicode_decimal : char -> option N.

(** [_PyUnicode_TransformDecimalAndSpaceToASCII]: white space becomes a
    space and a decimal digit its ASCII digit; any other code point
    above the ASCII range makes the text invalid. *)
Fixpoint to_ascii_decimal (s : str) : option str :=
  match s with
  | [] => Some []
  | c :: s' =>
    let rest := to_ascii_decimal s' in
    if (c <? 128)%N then option_map (cons c) rest
    else if isspace c then option_map (cons 32%N) rest
    else match unicode_decimal c with
         | Some d => option_map (cons (48 + d)%N) rest
         | None => None
         end
  end.

(** [float(s)] for a [str]: [None] stands for [ValueError]. *)
Definition of_str (s : str) : option float :=
  match to_ascii_decimal s with
  | None => None
  | Some a =>
    match drop_underscores 0%N a with
    | None => None
    | Some b =>
      string_to_double (rstrip_by ascii_isspace (lstrip_by ascii_isspace b))
    end
  end.

End OfStr.

(** [float(n)] for an [int]: [None] stands for [OverflowError]. *)
Definition of_int (n : Z) : option float :=
  match binary_normalize prec emax n 0 false with
  | S754_infinity _ => None
  | f => Some f
  end.

End PyFloat.

(* ================================================================= *)
(** ** Python values, exceptions and results *)

Module PyVal.

(** The values [json.loads] can build, which are also the values the
    transport can hand on. A [dict] keeps its keys in insertion order. *)
#[local] Set Warnings "-register-all".
Inductive pyval :=
  | PNone
  | PBool (b : bool)
  | PInt (n : Z)
  | PFloat (f : PyFloat.float)
  | PStr (s : str)
  | PList (l : list pyval)
  | PDict (d : list (str * pyval)).

(** What [requests.post] returns: the status code and the body text. *)
Record Response := { status_code : Z; text : str }.

(** The exceptions that can be raised; [HTTPError] carries the response
    it was raised for, [LibraryError] is any other exception a client
    library raises, by class name. *)
Inductive exn :=
  | TypeError
  | KeyError
  | IndexError
  | ValueError
  | AttributeError
  | OverflowError
  | JSONDecodeError
  | HTTPError (response : Response)
  | LibraryError (class : string).

Inductive result (A : Type) :=
  | Ok (a : A)
  | Raise (e : exn).
Arguments Ok {A} a.
Arguments Raise {A} e.

Definition rbind {A B} (r : result A) (f : A -> result B) : result B :=
  match r with
  | Ok a => f a
  | Raise e => Raise e
  end.

Definition or_raise {A} (e : exn) (o : option A) : result A :=
  match o with
  | Some a => Ok a
  | None => Raise e
  end.

(** [d[k]] on the items of a [dict] whose keys are strings. *)
Fixpoint dict_get (d : list (str * pyval)) (k : str) : option pyval :=
  match d with
  | [] => None
  | (k', v) :: d' => if str_eqb k' k then Some v else dict_get d' k
  end.

(** [d[k] = v]: a key already present keeps its place. *)
Fixpoint dict_set (d : list (str * pyval)) (k : str) (v : pyval)
  : list (str * pyval) :=
  match d with
  | [] => [(k, v)]
  | (k', v') :: d' =>
    if str_eqb k' k then (k', v) :: d' else (k', v') :: dict_set d' k v
  end.

(** A subscript: a string or an integer. *)
Inductive key :=
  | KStr (s : str)
  | KInt (i : Z).

(** [l[i]] on a sequence of length [n]: the position, counted from the
    end when [i] is negative. *)
Definition seq_index (n : nat) (i : Z) : option nat :=
  let j := (if i <? 0 then i + Z.of_nat n else i)%Z in
  if ((0 <=? j) && (j <? Z.of_nat n))%Z then Some (Z.to_nat j) else None.

(** [v[k]] *)
Definition getitem (v : pyval) (k : key) : result pyval :=
  match v, k with
  | PDict d, KStr s => or_raise KeyError (dict_get d s)
  | PDict d, KInt _ => Raise KeyError
  | PList l, KInt i =>
    match seq_index (length l) i with
    | Some j => or_raise IndexError (nth_error l j)
    | None => Raise IndexError
    end
  | PList _, KStr _ => Raise TypeError
  | PStr s, KInt i =>
    match seq_index (length s) i with
    | Some j => or_raise IndexError (option_map (fun c => PStr [c]) (nth_error s j))
    | None => Raise IndexError
    end
  | PStr _, KStr _ => Raise TypeError
  | _, _ => Raise TypeError
  end.

(** [l[i]] on a Python list of strings, as [str.split] returns. *)
Definition list_item (l : list str) (i : nat) : result str :=
  or_raise IndexError (nth_error l i).

Section Conversions.

Variable unicode_decimal : char -> option N.

(** [float(v)] *)
Definition py_float (v : pyval) : result PyFloat.float :=
  match v with
  | PFloat f => Ok f
  | PInt n => or_raise OverflowError (PyFloat.of_int n)
  | PBool b => Ok (PyFloat.of_decimal false (if b then 1 else 0) 0)
  | PStr s => or_raise ValueError (PyFloat.of_str unicode_decimal s)
  | PNone | PList _ | PDict _ => Raise TypeError
  end.

(** [repr] of a value that is not a string, an interpreter primitive. *)
Variable py_repr : pyval -> str.

(** [str(v)] *)
Definition py_str (v : pyval) : str :=
  match v with
  | PStr s => s
  | _ => py_repr v
  end.

End Conversions.

End PyVal.
Export PyVal.

(* ================================================================= *)
(** ** [json.loads] *)

Module Json.

(** JSON white space: space, tab, line feed, carriage return. *)
Definition is_ws (c : char) : bool :=
  ((c =? 32) || (c =? 9) || (c =? 10) || (c =? 13))%N.

Fixpoint skip_ws (s : str) : str :=
  match s with
  | c :: s' => if is_ws c then skip_ws s' else s
  | [] => []
  end.

(** The text after [c] when [s] starts with [c]. *)
Definition expect (c : char) (s : str) : option str :=
  match s with
  | x :: r => if (x =? c)%N then Some r else None
  | [] => None
  end.

Definition hexval (c : char) : option N :=
  if ((48 <=? c) && (c <=? 57))%N then Some (c - 48)%N
  else if ((97 <=? c) && (c <=? 102))%N then Some (c - 87)%N
  else if ((65 <=? c) && (c <=? 70))%N then Some (c - 55)%N
  else None.

Definition hex4 (a b c d : char) : option N :=
  match hexval a, hexval b, hexval c, hexval d with
  | Some x, Some y, Some z, Some w => Some (((x * 16 + y) * 16 + z) * 16 + w)%N
  | _, _, _, _ => None
  end.

Definition is_high_surrogate (u : N) : bool := ((55296 <=? u) && (u <=? 56319))%N.
Definition is_low_surrogate (u : N) : bool := ((56320 <=? u) && (u <=? 57343))%N.
Definition join_surrogates (hi lo : N) : N :=
  (65536 + (hi - 55296) * 1024 + (lo - 56320))%N.

(** The character a one-letter escape stands for. *)
Definition simple_escape (c : char) : option char :=
  if (c =? 34)%N then Some 34%N
  else if (c =? 92)%N then Some 92%N
  else if (c =? 47)%N then Some 47%N
  else if (c =? 98)%N then Some 8%N
  else if (c =? 102)%N then Some 12%N
  else if (c =? 110)%N then Some 10%N
  else if (c =? 114)%N then Some 13%N
  else if (c =? 116)%N then Some 9%N
  else None.

Definition push (c : char) (r : option (str * str)) : option (str * str) :=
  match r with
  | Some (k, rest) => Some (c :: k, rest)
  | None => None
  end.

(** [scanstring], strict: the text of a string literal, read from just
    after its opening quote, and what follows its closing quote. *)
Fixpoint scanstring (s : str) : option (str * str) :=
  match s with
  | [] => None
  | c :: s1 =>
    if (c =? 34)%N then Some ([], s1)
    else if (c =? 92)%N then
      match s1 with
      | [] => None
      | e :: s2 =>
        if (e =? 117)%N then
          match s2 with
          | h1 :: h2 :: h3 :: h4 :: s3 =>
            match hex4 h1 h2 h3 h4 with
            | None => None
            | Some u =>
              if is_high_surrogate u then
                match s3 with
                | b :: v :: g1 :: g2 :: g3 :: g4 :: s4 =>
                  if ((b =? 92) && (v =? 117))%N then
                    match hex4 g1 g2 g3 g4 with
                    | None => None
                    | Some u2 =>
                      if is_low_surrogate u2
                      then push (join_surrogates u u2) (scanstring s4)
                      else push u (scanstring s3)
                    end
                  else push u (scanstring s3)
                | _ => push u (scanstring s3)
                end
              else push u (scanstring s3)
            end
          | _ => None
          end
        else
          match simple_escape e with
          | Some ch => push ch (scanstring s2)
          | None => None
          end
      end
    else if (c <? 32)%N then None
    else push c (scanstring s1)
  end.

(** [_match_number], after the sign: [0] or a digit string without a
    leading zero, an optional fraction and an optional exponent. A
    numeral with a fraction or an exponent is a [float], any other an
    [int]. *)
Definition match_digits (neg : bool) (s : str) : option (pyval * str) :=
  match s with
  | [] => None
  | c :: r =>
    let int_part :=
      if ((49 <=? c) && (c <=? 57))%N then
        let (ds, r1) := PyFloat.span_digits r in Some (c :: ds, r1)
      else if (c =? 48)%N then Some ([c], r)
      else None in
    match int_part with
    | None => None
    | Some (ip, r1) =>
      let (fp, r2) :=
        match expect 46%N r1 with
        | Some r' =>
          match PyFloat.span_digits r' with
          | ([], _) => ([], r1)
          | (fs, r'') => (fs, r'')
          end
        | None => ([], r1)
        end in
      match PyFloat.take_exponent r2, fp with
      | None, [] =>
        let n := PyFloat.digits_value ip in
        Some (PInt (if neg then - n else n), r2)
      | None, _ :: _ =>
        Some (PFloat (PyFloat.of_decimal neg (PyFloat.digits_value (ip ++ fp))
                        (- Z.of_nat (length fp))), r2)
      | Some (e, r3), _ =>
        Some (PFloat (PyFloat.of_decimal neg (PyFloat.digits_value (ip ++ fp))
                        (e - Z.of_nat (length fp))), r3)
      end
    end
  end.

(** [_match_number]: an optional minus and a numeral. *)
Definition match_number (s : str) : option (pyval * str) :=
  match expect 45%N s with
  | Some r => match_digits true r
  | None => match_digits false s
  end.

(** The outcome of scanning one value: the value and the text after it,
    a decoding error, or no steps left. *)
Inductive scan :=
  | Scanned (v : pyval) (rest : str)
  | Malformed
  | Exhausted.

(** [scan_once], with the loops of [JSONObject] and [JSONArray]. The
    first argument bounds the number of calls; [loads] gives enough
    ([loads_enough_steps] below). *)
Fixpoint scan_once (n : nat) (s : str) {struct n} : scan :=
  match n with
  | O => Exhausted
  | S n' =>
    match s with
    | [] => Malformed
    | c :: r =>
      if (c =? 34)%N then
        match scanstring r with
        | Some (k, r') => Scanned (PStr k) r'
        | None => Malformed
        end
      else if (c =? 123)%N then
        match expect 125%N (skip_ws r) with
        | Some r' => Scanned (PDict []) r'
        | None => object_items n' [] (skip_ws r)
        end
      else if (c =? 91)%N then
        match expect 93%N (skip_ws r) with
        | Some r' => Scanned (PList []) r'
        | None => array_items n' [] (skip_ws r)
        end
      else if startswith (lit "null") s then Scanned PNone (skipn 4 s)
      else if startswith (lit "true") s then Scanned (PBool true) (skipn 4 s)
      else if startswith (lit "false") s then Scanned (PBool false) (skipn 5 s)
      else if startswith (lit "NaN") s then Scanned (PFloat S754_nan) (skipn 3 s)
      else if startswith (lit "Infinity") s
           then Scanned (PFloat (S754_infinity false)) (skipn 8 s)
      else if startswith (lit "-Infinity") s
           then Scanned (PFloat (S754_infinity true)) (skipn 9 s)
      else
        match match_number s with
        | Some (v, r') => Scanned v r'
        | None => Malformed
        end
    end
  end

(** One [key: value] pair and the pairs after it; [s] is where the key
    is expected and [d] holds the pairs read so far. *)
with object_items (n : nat) (d : list (str * pyval)) (s : str) {struct n}
  : scan :=
  match n with
  | O => Exhausted
  | S n' =>
    match expect 34%N s with
    | Some r =>
      match scanstring r with
      | None => Malformed
      | Some (k, r1) =>
        match expect 58%N (skip_ws r1) with
        | Some r2 =>
          match scan_once n' (skip_ws r2) with
          | Scanned v r3 =>
            match expect 125%N (skip_ws r3) with
            | Some r4 => Scanned (PDict (dict_set d k v)) r4
            | None =>
              match expect 44%N (skip_ws r3) with
              | Some r4 => object_items n' (dict_set d k v) (skip_ws r4)
              | None => Malformed
              end
            end
          | other => other
          end
        | None => Malformed
        end
      end
    | None => Malformed
    end
  end

(** One element and the elements after it; [s] is where the element is
    expected and [l] holds the elements read so far. *)
with array_items (n : nat) (l : list pyval) (s : str) {struct n} : scan :=
  match n with
  | O => Exhausted
  | S n' =>
    match scan_once n' s with
    | Scanned v r1 =>
      match expect 93%N (skip_ws r1) with
      | Some r2 => Scanned (PList (l ++ [v])) r2
      | None =>
        match expect 44%N (skip_ws r1) with
        | Some r2 => array_items n' (l ++ [v]) (skip_ws r2)
        | None => Malformed
        end
      end
    | other => other
    end
  end.

(** [json.loads(s)] for a [str]. *)
Definition loads (s : str) : result pyval :=
  if startswith [65279%N] s then Raise JSONDecodeError
  else
    match scan_once (2 * length s + 1) (skip_ws s) with
    | Scanned v r =>
      match skip_ws r with
      | [] => Ok v
      | _ :: _ => Raise JSONDecodeError
      end
    | Malformed | Exhausted => Raise JSONDecodeError
    end.

End Json.

(* ================================================================= *)
(** ** The [requests] response methods *)

Module Requests.

(** [Response.raise_for_status()]: [HTTPError] for a client or server
    error status (400 to 599), nothing for any other status. *)
Definition raise_for_status (r : Response) : result unit :=
  if ((400 <=? status_code r) && (status_code r <? 600))%Z
  then Raise (HTTPError r)
  else Ok tt.

(** [Response.json()], on the body as decoded text. *)
Definition json (r : Response) : result pyval := Json.loads (text r).

End Requests.

(* ================================================================= *)
(** ** Outbound calls *)

Module IO.

(** A call that leaves the process: the POST of [requests.post] with its
    URL, headers and JSON payload, or the context search of the search
    client with its API key and query. *)
Inductive call :=
  | HttpPost (url : str) (headers : list (str * str)) (json : pyval)
  | SearchContext (api_key : option str) (query : str).

(** A computation: the calls it made, in order, and how it ended. *)
Definition io (A : Type) : Type := list call * result A.

Definition ret {A} (a : A) : io A := ([], Ok a).

Definition raise {A} (e : exn) : io A := ([], Raise e).

Definition lift {A} (r : result A) : io A := ([], r).

Definition bind {A B} (m : io A) (f : A -> io B) : io B :=
  match m with
  | (t, Ok a) => let (t', r) := f a in (t ++ t', r)
  | (t, Raise e) => (t, Raise e)
  end.

(** [try: body / except <classes> as e: handler e] *)
Definition try_except {A} (body : io A) (classes : exn -> bool)
           (handler : exn -> io A) : io A :=
  match body with
  | (t, Raise e) =>
    if classes e then let (t', r) := handler e in (t ++ t', r) else body
  | (_, Ok _) => body
  end.

Definition calls {A} (m : io A) : list call := fst m.
Definition outcome {A} (m : io A) : result A := snd m.

End IO.
Export IO.

Notation "x <- m ;; k" := (bind m (fun x => k))
  (at level 61, m at next level, right associativity).
Notation "'let?' x := r 'in' k" := (rbind r (fun x => k))
  (at level 61, x name, r at next level, right associativity).

(** [except Exception] *)
Definition Exception (e : exn) : bool := true.

(** [except requests.HTTPError] *)
Definition is_HTTPError (e : exn) : bool :=
  match e with
  | HTTPError _ => true
  | _ => false
  end.

(** [except (json.JSONDecodeError, KeyError)] *)
Definition is_JSONDecodeError_or_KeyError (e : exn) : bool :=
  match e with
  | JSONDecodeError | KeyError => true
  | _ => false
  end.

(** A text given line by line, each line ended by a line feed. *)
Definition text_lines (ls : list str) : str :=
  concat (List.map (fun l => l ++ [10%N]) ls).

(** [f"{x}"] for a value that is a [str] or [None]. *)
Definition format_opt (o : option str) : str :=
  match o with
  | Some s => s
  | None => lit "None"
  end.

(* ================================================================= *)
(** ** [utils.py] *)

Section Utils.

(** The interpreter's Unicode database and [repr]. *)
Variable unicode_decimal : char -> option N.
Variable py_repr : pyval -> str.

(** The module globals, read from the environment when the module is
    loaded ([None] when the variable is not set), and the search key,
    read at each call. *)
Variable OPEN_UI_API_KEY : option str.
Variable OPEN_UI_CHAT_ENDPOINT : option str.
Variable TAVILY_API_KEY : option str.

(** The chat endpoint behind [requests.post] and the search provider
    behind [TavilyClient(api_key).get_search_context]. *)
Variable requests_post : str -> list (str * str) -> pyval -> result Response.
Variable tavily_get_search_context : option str -> str -> result pyval.

Definition post (url : str) (headers : list (str * str)) (json : pyval)
  : io Response :=
  ([HttpPost url headers json], requests_post url headers json).

Definition get_search_context (api_key : option str) (query : str)
  : io pyval :=
  ([SearchContext api_key query], tavily_get_search_context api_key query).

(** The literal [0.7], used as temperature and as confidence threshold. *)
Definition float_0_7 : PyFloat.float := PyFloat.of_decimal false 7 (-1).

(** The host of the provider that takes the minimal payload. *)
Definition minimal_payload_host : str := lit "alphagpt.alphafmc.com".

Definition message (role content : str) : pyval :=
  PDict [(lit "role", PStr role); (lit "content", PStr content)].

(** Line 47: [data["choices"][0]["message"]["content"]] *)
Definition choice_content (data : pyval) : result pyval :=
  let? choices := getitem data (KStr (lit "choices")) in
  let? choice := getitem choices (KInt 0) in
  let? msg := getitem choice (KStr (lit "message")) in
  getitem msg (KStr (lit "content")).

(** [chat_request(model, system_prompt, user_message, max_tokens)] *)
Definition chat_request (model system_prompt user_message : str)
           (max_tokens : Z) : io pyval :=
  let headers :=
    [(lit "Authorization", lit "Bearer " ++ format_opt OPEN_UI_API_KEY);
     (lit "Content-Type", lit "application/json")] in
  match OPEN_UI_CHAT_ENDPOINT with
  | None => raise TypeError  (* [in] applied to [None] *)
  | Some endpoint =>
    let payload :=
      if contains minimal_payload_host endpoint then
        PDict [(lit "model", PStr model);
               (lit "messages", PList [message (lit "user") user_message])]
      else
        PDict [(lit "model", PStr model);
               (lit "messages",
                PList [message (lit "system") system_prompt;
                       message (lit "user") user_message]);
               (lit "max_tokens", PInt max_tokens);
               (lit "temperature", PFloat float_0_7)] in
    response <- post endpoint headers payload ;;
    _ <- try_except (lift (Requests.raise_for_status response))
                    is_HTTPError (fun e => raise e) ;;
    data <- lift (Requests.json response) ;;
    lift (choice_content data)
  end.

Definition call_rag_system_prompt (context : str) : str :=
  text_lines
    [lit "You are a helpful assistant that answers questions based on the provided context. ";
     lit "If the context doesn't contain enough information to answer confidently, indicate that.";
     [];
     lit "Context:";
     context].

(** [call_rag(query, context, dry_run)] *)
Definition call_rag (query context : str) (dry_run : bool) : io pyval :=
  if dry_run then ret (PStr (lit "Mock response: This is a dry run response."))
  else
    let system_prompt := call_rag_system_prompt context in
    try_except
      (response_content <-
         chat_request (lit "gpt-4-turbo") system_prompt query 512 ;;
       ret response_content)
      Exception
      (fun _ => ret (PStr [])).

(** [call_tavily_web_search(query, dry_run)] *)
Definition call_tavily_web_search (query : str) (dry_run : bool) : io pyval :=
  if dry_run
  then ret (PStr (lit "Mock web search response: This is a dry run response."))
  else
    try_except
      (context <- get_search_context TAVILY_API_KEY query ;;
       ret context)
      Exception
      (fun _ => ret (PStr [])).

Definition assess_confidence_system_prompt : str :=
  text_lines
    [lit "You are a confidence assessment expert. Evaluate the confidence level of the following response.";
     lit "Consider:";
     lit "1. Completeness of the answer";
     lit "2. Specificity and precision";
     lit "3. Presence of uncertainty markers (e.g., " ++ dquote ++ lit "might"
       ++ dquote ++ lit ", " ++ dquote ++ lit "maybe" ++ dquote ++ lit ", "
       ++ dquote ++ lit "I'm not sure" ++ dquote ++ lit ")";
     lit "4. Consistency of information";
     [];
     lit "You must respond in valid JSON format with exactly these fields:";
     lit "{";
     lit "    " ++ dquote ++ lit "confidence_score" ++ dquote
       ++ lit ": <float between 0 and 1>,";
     lit "    " ++ dquote ++ lit "reasoning" ++ dquote ++ lit ": " ++ dquote
       ++ lit "<brief explanation>" ++ dquote;
     lit "}"].

(** The literal ['"confidence_score":']. *)
Definition confidence_score_field : str :=
  dquote ++ lit "confidence_score" ++ dquote ++ lit ":".

(** Lines 120-121: a list is replaced by the [content] of its first
    element when that is a [dict] with this key, and by [str] of its
    first element otherwise. *)
Definition assess_confidence_unwrap (evaluation : pyval) : result pyval :=
  match evaluation with
  | PList _ =>
    let? first := getitem evaluation (KInt 0) in
    match first with
    | PDict d =>
      match dict_get d (lit "content") with
      | Some content => Ok content
      | None => Ok (PStr (py_str py_repr first))
      end
    | _ => Ok (PStr (py_str py_repr first))
    end
  | _ => Ok evaluation
  end.

(** Lines 122-123: when [str(evaluation)] contains [TextBlock(text=],
    the text after the first [text='] and before the next [',]. *)
Definition assess_confidence_extract (evaluation : pyval) : result pyval :=
  let text := py_str py_repr evaluation in
  if contains (lit "TextBlock(text=") text then
    let? after := list_item (split (lit "text='") text) 1 in
    let? inner := list_item (split (lit "',") after) 0 in
    Ok (PStr inner)
  else Ok evaluation.

(** Lines 120-123. *)
Definition assess_confidence_clean (evaluation : pyval) : result pyval :=
  let? evaluation := assess_confidence_unwrap evaluation in
  assess_confidence_extract evaluation.

(** Lines 134-138: the fall-back when the cleaned text is not JSON with
    a [confidence_score] key; [None] when the block does not return. *)
Definition manual_extraction (evaluation : str) : result (option bool) :=
  if contains confidence_score_field evaluation then
    let? after := list_item (split confidence_score_field evaluation) 1 in
    let? before_comma := list_item (split (lit ",") after) 0 in
    let score_text := strip before_comma in
    let? confidence_score :=
      or_raise ValueError (PyFloat.of_str unicode_decimal score_text) in
    Ok (Some (PyFloat.gt confidence_score float_0_7))
  else Ok None.

(** Lines 128-131: the strict parse. *)
Definition strict_extraction (evaluation : str) : result (option bool) :=
  let? parsed := Json.loads evaluation in
  let? score := getitem parsed (KStr (lit "confidence_score")) in
  let? confidence_score := py_float unicode_decimal score in
  Ok (Some (PyFloat.gt confidence_score float_0_7)).

(** [assess_confidence(response, dry_run)] *)
Definition assess_confidence (response : str) (dry_run : bool) : io bool :=
  if dry_run then ret true
  else
    try_except
      (evaluation <-
         chat_request (lit "gpt-4-turbo") assess_confidence_system_prompt
                      (lit "Response to evaluate: " ++ response) 512 ;;
       evaluation <- lift (assess_confidence_clean evaluation) ;;
       match evaluation with
       | PStr evaluation =>
         returned <-
           try_except (lift (strict_extraction evaluation))
                      is_JSONDecodeError_or_KeyError
                      (fun _ => lift (manual_extraction evaluation)) ;;
         match returned with
         | Some answer => ret answer
         | None => ret false
         end
       | _ =>
         (* [json.loads] of a value that is not a [str]: a [TypeError],
            which the inner handler does not catch *)
         raise TypeError
       end)
      Exception
      (fun _ => ret false).

Definition synthesize_information_system_prompt : str :=
  text_lines
    [lit "Synthesize the internal knowledge and web search results into a comprehensive response. ";
     lit "Format your response in a clear, human-readable way:";
     lit "1. Use bullet points for lists";
     lit "2. Add line breaks between sections";
     lit "3. Bold important numbers and dates";
     lit "4. Present the information in a conversational tone";
     lit "5. Highlight key findings at the beginning";
     lit "6. If there are discrepancies between sources, explain them clearly";
     [];
     lit "Structure your response with these sections:";
     lit "- Key Finding";
     lit "- Details from Internal Knowledge";
     lit "- Details from Web Search";
     lit "- Additional Context (if any)"].

(** Lines 177-178, the same text as lines 120-121. *)
Definition synthesize_information_unwrap (response : pyval) : result pyval :=
  match response with
  | PList _ =>
    let? first := getitem response (KInt 0) in
    match first with
    | PDict d =>
      match dict_get d (lit "content") with
      | Some content => Ok content
      | None => Ok (PStr (py_str py_repr first))
      end
    | _ => Ok (PStr (py_str py_repr first))
    end
  | _ => Ok response
  end.

(** Lines 179-180: when [response] starts with [TextBlock(], the text
    after the first [text='] and before the last [')]; a value without
    a [startswith] method raises [AttributeError]. *)
Definition synthesize_information_extract (response : pyval) : result pyval :=
  match response with
  | PStr text =>
    if startswith (lit "TextBlock(") text then
      let? after := list_item (split_max 1 (lit "text='") text) 1 in
      let? inner := list_item (rsplit1 (lit "')") after) 0 in
      Ok (PStr inner)
    else Ok response
  | _ => Raise AttributeError
  end.

(** Lines 177-180. *)
Definition synthesize_information_clean (response : pyval) : result pyval :=
  let? response := synthesize_information_unwrap response in
  synthesize_information_extract response.

(** The body of the [try] of [synthesize_information], lines 170-183. *)
Definition synthesize_information_body (internal_response web_results : str)
  : io pyval :=
  response <-
    chat_request (lit "gpt-4-turbo") synthesize_information_system_prompt
                 (lit "Internal Knowledge: " ++ internal_response
                  ++ [10%N; 10%N] ++ lit "Web Results: " ++ web_results)
                 512 ;;
  response <- lift (synthesize_information_clean response) ;;
  ret response.

(** [synthesize_information(internal_response, web_results, dry_run)] *)
Definition synthesize_information (internal_response web_results : str)
           (dry_run : bool) : io pyval :=
  if dry_run then ret (PStr (lit "Mock synthesis: This is a dry run synthesis."))
  else
    try_except (synthesize_information_body internal_response web_results)
               Exception
               (fun _ => ret (PStr (lit "Error synthesizing information"))).

End Utils.

(* ================================================================= *)
(** ** Observations on a payload *)

Definition payload_get (p : pyval) (k : str) : option pyval :=
  match p with
  | PDict d => dict_get d k
  | _ => None
  end.

Definition payload_keys (p : pyval) : list str :=
  match p with
  | PDict d => List.map fst d
  | _ => []
  end.

Definition payload_messages (p : pyval) : list pyval :=
  match payload_get p (lit "messages") with
  | Some (PList l) => l
  | _ => []
  end.

(** The [role] of each message, in order. *)
Definition payload_roles (p : pyval) : list (option pyval) :=
  List.map (fun m => payload_get m (lit "role")) (payload_messages p).

(** A status in the class 2xx. *)
Definition is_2xx (status : Z) : bool := ((200 <=? status) && (status <? 300))%Z.

(** The answer of [assess_confidence] as a function of what the
    transport returned: lines 120-142 without the transport. *)
Definition verdict (unicode_decimal : char -> option N) (py_repr : pyval -> str)
           (evaluation : pyval) : bool :=
  match assess_confidence_clean py_repr evaluation with
  | Ok (PStr text) =>
    match strict_extraction unicode_decimal text with
    | Ok (Some answer) => answer
    | Ok None => false
    | Raise e =>
      if is_JSONDecodeError_or_KeyError e then
        match manual_extraction unicode_decimal text with
        | Ok (Some answer) => answer
        | Ok None | Raise _ => false
        end
      else false
    end
  | Ok _ | Raise _ => false
  end.

(* ================================================================= *)
(** ** Concrete endpoints and model outputs for the examples *)

Module Example.

(** A Unicode database without digits above the ASCII range and a
    [repr]; the examples below hand only text around, so neither is
    consulted. *)
Definition unicode_decimal (c : char) : option N := None.
Definition py_repr (v : pyval) : str := lit "<object>".

Definition api_key : option str := Some (lit "sk-test").
Definition standard_endpoint : str := lit "https://openui.example.org/api/chat/completions".
Definition minimal_endpoint : str := lit "https://alphagpt.alphafmc.com/v1/chat".

(** The text of a JSON string literal holding [s], for text with no
    control character. *)
Definition json_string (s : str) : str :=
  dquote
  ++ flat_map (fun c => if ((c =? 34) || (c =? 92))%N then [92%N; c] else [c]) s
  ++ dquote.

(** A chat-completion body whose first choice holds [content]. *)
Definition chat_body (content : str) : str :=
  lit "{" ++ dquote ++ lit "choices" ++ dquote ++ lit ": [{" ++ dquote
  ++ lit "message" ++ dquote ++ lit ": {" ++ dquote ++ lit "role" ++ dquote
  ++ lit ": " ++ dquote ++ lit "assistant" ++ dquote ++ lit ", " ++ dquote
  ++ lit "content" ++ dquote ++ lit ": " ++ json_string content ++ lit "}}]}".

(** An endpoint that answers every request with [status] and a body
    holding [content]. *)
Definition answering (status : Z) (content : str)
  : str -> list (str * str) -> pyval -> result Response :=
  fun _ _ _ => Ok {| status_code := status; text := chat_body content |}.

(** An endpoint that cannot be reached. *)
Definition unreachable : str -> list (str * str) -> pyval -> result Response :=
  fun _ _ _ => Raise (LibraryError "ConnectionError").

(** A search provider that cannot be reached. *)
Definition search_down : option str -> str -> result pyval :=
  fun _ _ => Raise (LibraryError "ConnectionError").

(** [{"confidence_score": 0.85, "reasoning": "x"}] *)
Definition score_first : str :=
  lit "{" ++ dquote ++ lit "confidence_score" ++ dquote ++ lit ": 0.85, "
  ++ dquote ++ lit "reasoning" ++ dquote ++ lit ": " ++ dquote ++ lit "x"
  ++ dquote ++ lit "}".

(** [{"confidence_score": 0.5, "reasoning": "x"}] *)
Definition score_half : str :=
  lit "{" ++ dquote ++ lit "confidence_score" ++ dquote ++ lit ": 0.5, "
  ++ dquote ++ lit "reasoning" ++ dquote ++ lit ": " ++ dquote ++ lit "x"
  ++ dquote ++ lit "}".

(** [{"confidence_score": 0.7, "reasoning": "x"}] *)
Definition score_threshold : str :=
  lit "{" ++ dquote ++ lit "confidence_score" ++ dquote ++ lit ": 0.7, "
  ++ dquote ++ lit "reasoning" ++ dquote ++ lit ": " ++ dquote ++ lit "x"
  ++ dquote ++ lit "}".

(** [{"reasoning": "x", "confidence_score": 0.85}] *)
Definition score_last : str :=
  lit "{" ++ dquote ++ lit "reasoning" ++ dquote ++ lit ": " ++ dquote
  ++ lit "x" ++ dquote ++ lit ", " ++ dquote ++ lit "confidence_score"
  ++ dquote ++ lit ": 0.85}".

(** [{"reasoning": "a',b", "confidence_score": 0.9}] *)
Definition quoted_reasoning : str :=
  lit "{" ++ dquote ++ lit "reasoning" ++ dquote ++ lit ": " ++ dquote
  ++ lit "a',b" ++ dquote ++ lit ", " ++ dquote ++ lit "confidence_score"
  ++ dquote ++ lit ": 0.9}".

(** [Score: {"confidence_score": 0.95}] *)
Definition score_before_brace : str :=
  lit "Score: {" ++ dquote ++ lit "confidence_score" ++ dquote ++ lit ": 0.95}".

(** [text], wrapped as [TextBlock(text='...', type='text')]. *)
Definition text_block (text : str) : str :=
  lit "TextBlock(text='" ++ text ++ lit "', type='text')".

(** [text], wrapped as [TextBlock(text='...')]. *)
Definition bare_text_block (text : str) : str :=
  lit "TextBlock(text='" ++ text ++ lit "')".

(** The inputs of the wrappers. *)
Definition draft : str := lit "Paris is the capital of France.".
Definition query : str := lit "What is the capital of France?".
Definition context : str :=
  lit "France is a country in Europe. Its capital is Paris.".

(** The transport call [assess_confidence] makes for [draft] when the
    endpoint answers with [content]. *)
Definition assessment_request (content : str) : io pyval :=
  chat_request api_key (Some standard_endpoint) (answering 200 content)
               (lit "gpt-4-turbo") assess_confidence_system_prompt
               (lit "Response to evaluate: " ++ draft) 512.

End Example.

(** More endpoints and model outputs, for the further properties. *)
Module Sample.

(** An endpoint that answers every request with [status] and the body
    text [body]. *)
Definition replying (status : Z) (body : str)
  : str -> list (str * str) -> pyval -> result Response :=
  fun _ _ _ => Ok {| status_code := status; text := body |}.

(** The transport call of a wrapper, at the standard endpoint. *)
Definition transport (post : str -> list (str * str) -> pyval -> result Response)
           (system_prompt user_message : str) : io pyval :=
  chat_request Example.api_key (Some Example.standard_endpoint) post
               (lit "gpt-4-turbo") system_prompt user_message 512.

Definition assessment (post : str -> list (str * str) -> pyval -> result Response)
  : io pyval :=
  transport post assess_confidence_system_prompt
            (lit "Response to evaluate: " ++ Example.draft).

Definition synthesis (post : str -> list (str * str) -> pyval -> result Response)
  : io pyval :=
  transport post synthesize_information_system_prompt
            (lit "Internal Knowledge: " ++ Example.draft ++ [10%N; 10%N]
             ++ lit "Web Results: " ++ Example.context).

(** [{"error": "overloaded"}] *)
Definition error_body : str :=
  lit "{" ++ dquote ++ lit "error" ++ dquote ++ lit ": " ++ dquote
  ++ lit "overloaded" ++ dquote ++ lit "}".

(** [{"choices": [{"message": {"role": "assistant", "content": null}}]}] *)
Definition null_content_body : str :=
  lit "{" ++ dquote ++ lit "choices" ++ dquote ++ lit ": [{" ++ dquote
  ++ lit "message" ++ dquote ++ lit ": {" ++ dquote ++ lit "role" ++ dquote
  ++ lit ": " ++ dquote ++ lit "assistant" ++ dquote ++ lit ", " ++ dquote
  ++ lit "content" ++ dquote ++ lit ": null}}]}".

(** [{"choices": [{"message": {"content": [{"type": "text", "content":
    "Paris"}]}}]}] *)
Definition list_content_body : str :=
  lit "{" ++ dquote ++ lit "choices" ++ dquote ++ lit ": [{" ++ dquote
  ++ lit "message" ++ dquote ++ lit ": {" ++ dquote ++ lit "content" ++ dquote
  ++ lit ": [{" ++ dquote ++ lit "type" ++ dquote ++ lit ": " ++ dquote
  ++ lit "text" ++ dquote ++ lit ", " ++ dquote ++ lit "content" ++ dquote
  ++ lit ": " ++ dquote ++ lit "Paris" ++ dquote ++ lit "}]}}]}".

(** [TextBlock(text="it's fine")] *)
Definition double_quoted_block : str :=
  lit "TextBlock(text=" ++ dquote ++ lit "it's fine" ++ dquote ++ lit ")".

(** [Assessment: "confidence_score": 0.9, fairly sure] *)
Definition score_then_comma : str :=
  lit "Assessment: " ++ confidence_score_field ++ lit " 0.9" ++ lit ","
  ++ lit " fairly sure".

(** [{"result": {"confidence_score": 0.9, "ok": true}}] *)
Definition nested_score : str :=
  lit "{" ++ dquote ++ lit "result" ++ dquote ++ lit ": {"
  ++ confidence_score_field ++ lit " 0.9" ++ lit "," ++ lit " " ++ dquote
  ++ lit "ok" ++ dquote ++ lit ": true}}".

(** [[{"confidence_score": 0.9, "reasoning": "x"}]] *)
Definition listed_score : str :=
  lit "[{" ++ dquote ++ lit "confidence_score" ++ dquote ++ lit ": 0.9, "
  ++ dquote ++ lit "reasoning" ++ dquote ++ lit ": " ++ dquote ++ lit "x"
  ++ dquote ++ lit "}]".

(** [{"confidence_score": null}] *)
Definition null_score : str :=
  lit "{" ++ dquote ++ lit "confidence_score" ++ dquote ++ lit ": null}".

End Sample.

(** Running a computation whose parts are known. *)
Ltac io_simpl :=
  cbn [try_except bind ret raise lift Exception app fst snd calls outcome];
  rewrite ?app_nil_r.

(* ================================================================= *)
(** ** Facts about the string methods *)

Section StrFacts.

Lemma startswith_app (p s : str) : startswith p (p ++ s) = true.
Proof.
  induction p as [|c p IH]; simpl; [reflexivity|].
  now rewrite N.eqb_refl, IH.
Qed.

Lemma startswith_inv (p s : str) :
  startswith p s = true -> exists r, s = p ++ r.
Proof.
  revert s; induction p as [|c p IH]; intros s H.
  - now exists s.
  - destruct s as [|d s]; simpl in H; [discriminate|].
    apply andb_true_iff in H as [Hc Hp].
    apply N.eqb_eq in Hc; subst d.
    destruct (IH _ Hp) as [r ->]. now exists r.
Qed.

Lemma startswith_prefix (p q s : str) :
  startswith (p ++ q) s = true -> startswith p s = true.
Proof.
  revert s; induction p as [|c p IH]; intros s H; simpl in *; [reflexivity|].
  destruct s as [|d s]; [discriminate|].
  apply andb_true_iff in H as [Hc Hp].
  now rewrite Hc, (IH _ Hp).
Qed.

Lemma contains_startswith (p s : str) :
  contains p s = false -> startswith p s = false.
Proof.
  destruct s; simpl; intros H; now apply orb_false_iff in H as [H _].
Qed.

Lemma contains_tail (p : str) (c : char) (s : str) :
  contains p (c :: s) = false -> contains p s = false.
Proof.
  simpl; intros H; now apply orb_false_iff in H as [_ H].
Qed.

(** A text that does not hold [p] does not hold a longer [p ++ q]. *)
Lemma contains_prefix (p q s : str) :
  contains p s = false -> contains (p ++ q) s = false.
Proof.
  induction s as [|c s IH]; intros H.
  - simpl in *. apply orb_false_iff in H as [H _].
    rewrite orb_false_r in *.
    destruct (startswith (p ++ q) []) eqn:E; [|reflexivity].
    apply startswith_prefix in E. congruence.
  - pose proof (contains_startswith _ _ H) as Hs.
    apply contains_tail in H. simpl.
    rewrite (IH H), orb_false_r.
    destruct (startswith (p ++ q) (c :: s)) eqn:E; [|reflexivity].
    apply startswith_prefix in E. congruence.
Qed.

Lemma cut_absent (sep s : str) : contains sep s = false -> cut sep s = None.
Proof.
  induction s as [|c s IH]; intros H.
  - simpl in *. rewrite orb_false_r in H. now rewrite H.
  - pose proof (contains_startswith _ _ H) as Hs.
    apply contains_tail in H.
    cbn [cut]. now rewrite Hs, (IH H).
Qed.

(** An occurrence of [sep] at the head of [u ++ v] lies within [u] and
    the first [len(sep) - 1] characters of [v] when [u] is not empty. *)
Lemma startswith_window (sep u v : str) :
  u <> [] ->
  startswith sep (u ++ v) = startswith sep (u ++ firstn (length sep - 1) v).
Proof.
  revert u v; induction sep as [|c sep IH]; intros u v Hu; [reflexivity|].
  destruct u as [|d u]; [congruence|].
  cbn [app startswith length]. f_equal.
  replace (S (length sep) - 1) with (length sep) by lia.
  destruct u as [|e u].
  - simpl. clear. revert v; induction sep as [|c sep IH]; intros v; [reflexivity|].
    destruct v as [|d v]; [reflexivity|]. cbn [length firstn startswith].
    now rewrite IH.
  - destruct sep as [|c' sep]; [reflexivity|].
    rewrite (IH (e :: u) v) by discriminate.
    rewrite (IH (e :: u) (firstn (length (c' :: sep)) v)) by discriminate.
    f_equal. f_equal.
    rewrite firstn_firstn. f_equal. simpl. lia.
Qed.

(** When no occurrence of [sep] starts within [u], the first cut of
    [u ++ v] is the first cut of [v]. *)
Lemma cut_skip (sep u v : str) :
  contains sep (u ++ firstn (length sep - 1) v) = false ->
  cut sep (u ++ v) =
  match cut sep v with
  | Some (a, b) => Some (u ++ a, b)
  | None => None
  end.
Proof.
  induction u as [|c u IH]; intros H.
  - simpl. now destruct (cut sep v) as [[a b]|].
  - pose proof (contains_startswith _ _ H) as Hs.
    apply contains_tail in H.
    change ((c :: u) ++ v) with (c :: (u ++ v)).
    cbn [cut].
    change (c :: (u ++ v)) with ((c :: u) ++ v).
    rewrite startswith_window by discriminate.
    rewrite Hs, (IH H).
    now destruct (cut sep v) as [[a b]|].
Qed.

Lemma cut_here (sep s : str) : cut sep (sep ++ s) = Some ([], s).
Proof.
  destruct (sep ++ s) as [|c r] eqn:E; cbn [cut]; rewrite <- E.
  - rewrite startswith_app. f_equal. f_equal.
    now rewrite skipn_app, skipn_all, Nat.sub_diag.
  - rewrite startswith_app. f_equal. f_equal.
    now rewrite skipn_app, skipn_all, Nat.sub_diag.
Qed.

(** The first cut of [u ++ sep ++ s] is at [sep] when no occurrence
    starts within [u]. *)
Lemma cut_first (sep u s : str) :
  contains sep (u ++ firstn (length sep - 1) sep) = false ->
  cut sep (u ++ sep ++ s) = Some (u, s).
Proof.
  intros H. rewrite cut_skip.
  - rewrite cut_here. now rewrite app_nil_r.
  - rewrite firstn_app.
    replace (length sep - 1 - length sep) with 0 by lia.
    now rewrite firstn_O, app_nil_r.
Qed.

Lemma split_max_head (n : nat) (sep s : str) :
  nth_error (split_max n sep s) 0 =
  Some match n, cut sep s with
       | S _, Some (a, _) => a
       | _, _ => s
       end.
Proof.
  destruct n; [reflexivity|]. simpl.
  now destruct (cut sep s) as [[a b]|].
Qed.

Lemma split_max_absent (n : nat) (sep s : str) :
  cut sep s = None -> split_max n sep s = [s].
Proof.
  intros H. destruct n; [reflexivity|]. simpl. now rewrite H.
Qed.

Lemma cut_length (sep s a b : str) :
  cut sep s = Some (a, b) -> length s = length a + length sep + length b.
Proof.
  revert a; induction s as [|c s IH]; intros a; cbn [cut].
  - destruct (startswith sep []) eqn:E; [|discriminate].
    apply startswith_inv in E as [r E].
    symmetry in E. apply app_eq_nil in E as [-> ->].
    intros [= <- <-]. reflexivity.
  - destruct (startswith sep (c :: s)) eqn:E.
    + apply startswith_inv in E as [r E]. rewrite E.
      rewrite skipn_app, skipn_all, Nat.sub_diag. simpl.
      intros [= <- <-]. rewrite length_app. simpl. lia.
    + destruct (cut sep s) as [[a' b']|] eqn:C; [|discriminate].
      intros [= <- <-]. specialize (IH _ eq_refl). simpl. lia.
Qed.

(** [s.split(sep)[0]] when [sep] occurs. *)
Lemma split_item_0 (sep s a b : str) :
  sep <> [] -> cut sep s = Some (a, b) -> list_item (split sep s) 0 = Ok a.
Proof.
  intros Hsep H. unfold list_item, split.
  rewrite split_max_head, H.
  apply cut_length in H.
  destruct (length s) eqn:E; [|reflexivity].
  destruct sep; [congruence|]. simpl in H. lia.
Qed.

(** [s.split(sep)[1]] when [sep] occurs once. *)
Lemma split_item_1 (sep s a b : str) :
  sep <> [] -> cut sep s = Some (a, b) -> cut sep b = None ->
  list_item (split sep s) 1 = Ok b.
Proof.
  intros Hsep H Hb. unfold list_item, split.
  pose proof (cut_length _ _ H) as L.
  destruct (length s) eqn:E.
  - destruct sep; [congruence|]. simpl in L. lia.
  - simpl. rewrite H. simpl. now rewrite split_max_absent.
Qed.

(** [s.split(sep)] when [sep] does not occur. *)
Lemma split_absent (sep s : str) : cut sep s = None -> split sep s = [s].
Proof. apply split_max_absent. Qed.

(** With [a <> b], appending [a] to a text adds no occurrence of [ab]. *)
Lemma contains_pair_snoc (a b : char) (s : str) :
  a <> b -> contains [a; b] s = false -> contains [a; b] (s ++ [a]) = false.
Proof.
  intros Hab. apply N.eqb_neq in Hab. rewrite N.eqb_sym in Hab.
  induction s as [|c s IH]; intros H.
  - cbn [app contains startswith]. now rewrite andb_false_r.
  - pose proof (contains_startswith _ _ H) as Hs.
    apply contains_tail in H.
    change ((c :: s) ++ [a]) with (c :: (s ++ [a])).
    cbn [contains]. rewrite (IH H), orb_false_r.
    destruct s as [|d s]; cbn [app startswith] in *.
    + now rewrite Hab, andb_false_r.
    + exact Hs.
Qed.

Lemma startswith_short (p s : str) :
  length s < length p -> startswith p s = false.
Proof.
  revert s; induction p as [|c p IH]; intros s H; simpl in H; [lia|].
  destruct s as [|d s]; [reflexivity|]. cbn [startswith].
  simpl in H. rewrite IH by lia. apply andb_false_r.
Qed.

Lemma rcut_short (sep s : str) : length s < length sep -> rcut sep s = None.
Proof.
  induction s as [|c s IH]; intros H; [reflexivity|].
  cbn [rcut]. simpl in H.
  rewrite IH by lia. now rewrite startswith_short.
Qed.

(** The last cut of [u ++ sep] is at its end. *)
Lemma rcut_last (sep u : str) : sep <> [] -> rcut sep (u ++ sep) = Some (u, []).
Proof.
  intros Hsep. induction u as [|c u IH].
  - destruct sep as [|c sep]; [congruence|].
    cbn [app rcut]. rewrite rcut_short by (simpl; lia).
    pose proof (startswith_app (c :: sep) []) as E.
    rewrite app_nil_r in E. rewrite E.
    now rewrite skipn_all.
  - change ((c :: u) ++ sep) with (c :: (u ++ sep)).
    cbn [rcut]. now rewrite IH.
Qed.

End StrFacts.

(* ================================================================= *)
(** ** Properties of [utils.py] *)

(* ================================================================= *)
(** ** [json.loads] has steps enough *)

Section JsonFacts.

Import Json.

Lemma expect_length (c : char) (s r : str) :
  expect c s = Some r -> length s = S (length r).
Proof.
  destruct s as [|x s]; simpl; [discriminate|].
  destruct (x =? c)%N; [|discriminate]. now intros [= ->].
Qed.

Lemma skip_ws_length (s : str) : length (skip_ws s) <= length s.
Proof.
  induction s as [|c s IH]; simpl; [lia|].
  destruct (is_ws c); simpl; lia.
Qed.

Lemma push_inv (c : char) (x : option (str * str)) (k r : str) :
  push c x = Some (k, r) -> exists k', x = Some (k', r).
Proof.
  destruct x as [[k' r']|]; simpl; [|discriminate].
  intros [= _ ->]. now exists k'.
Qed.

(** A string literal ends with its closing quote, so something is read. *)
Lemma scanstring_length (s k r : str) :
  scanstring s = Some (k, r) -> length r < length s.
Proof.
  remember (length s) as n eqn:E.
  assert (L : length s <= n) by lia. clear E.
  revert s k r L.
  induction n as [|n IH]; intros s k r L H.
  - destruct s; [discriminate|simpl in L; lia].
  - destruct s as [|c s1]; [discriminate|].
    cbn [scanstring] in H. simpl in L.
    repeat match type of H with
           | Some _ = Some _ => injection H as <- <-
           | None = Some _ => discriminate H
           | push _ (scanstring ?x) = Some _ =>
             let k' := fresh "k" in
             apply push_inv in H as [k' H]; apply IH in H; simpl in *; try lia
           | context [if ?b then _ else _] => destruct b
           | context [match ?x with _ => _ end] => destruct x; simpl in L
           end; simpl; lia.
Qed.

Lemma span_digits_length (s ds r : str) :
  PyFloat.span_digits s = (ds, r) -> length r <= length s.
Proof.
  revert ds r; induction s as [|c s IH]; intros ds r; simpl.
  - intros [= <- <-]. simpl. lia.
  - destruct (PyFloat.isdigit c).
    + destruct (PyFloat.span_digits s) as [ds' r'].
      intros [= <- <-]. specialize (IH _ _ eq_refl). lia.
    + intros [= <- <-]. simpl. lia.
Qed.

Lemma take_sign_length (s : str) (b : bool) (r : str) :
  PyFloat.take_sign s = (b, r) -> length r <= length s.
Proof.
  destruct s as [|c s]; simpl.
  - intros [= <- <-]. simpl. lia.
  - destruct (c =? 45)%N; [intros [= <- <-]; lia|].
    destruct (c =? 43)%N; intros [= <- <-]; simpl; lia.
Qed.

Lemma take_exponent_length (s : str) (e : Z) (r : str) :
  PyFloat.take_exponent s = Some (e, r) -> length r < length s.
Proof.
  destruct s as [|c s]; simpl; [discriminate|].
  destruct ((c =? 101) || (c =? 69))%N; [|discriminate].
  destruct (PyFloat.take_sign s) as [eneg r1] eqn:E1.
  destruct (PyFloat.span_digits r1) as [ds r2] eqn:E2.
  apply take_sign_length in E1. apply span_digits_length in E2.
  destruct ds; [discriminate|]. intros [= _ <-]. lia.
Qed.

Lemma match_digits_length (neg : bool) (s : str) (v : pyval) (r : str) :
  match_digits neg s = Some (v, r) -> length r < length s.
Proof.
  unfold match_digits. destruct s as [|c s]; [discriminate|].
  assert (Hint : forall ip r1,
             (if ((49 <=? c) && (c <=? 57))%N
              then let (ds, r1) := PyFloat.span_digits s in Some (c :: ds, r1)
              else if (c =? 48)%N then Some ([c], s) else None) = Some (ip, r1) ->
             length r1 <= length s).
  { intros ip r1. destruct (_ && _)%bool.
    - destruct (PyFloat.span_digits s) as [ds r'] eqn:E.
      apply span_digits_length in E. now intros [= _ <-].
    - destruct (c =? 48)%N; [|discriminate]. now intros [= _ <-]. }
  destruct (if ((49 <=? c) && (c <=? 57))%N then _ else _) as [[ip r1]|];
    [|discriminate].
  specialize (Hint _ _ eq_refl).
  assert (Hfrac : forall fp r2,
             match expect 46%N r1 with
             | Some r' =>
               match PyFloat.span_digits r' with
               | ([], _) => ([], r1)
               | (fs, r'') => (fs, r'')
               end
             | None => ([], r1)
             end = (fp, r2) -> length r2 <= length r1).
  { intros fp r2. destruct (expect 46%N r1) as [r'|] eqn:E.
    - apply expect_length in E.
      destruct (PyFloat.span_digits r') as [fs r''] eqn:E'.
      apply span_digits_length in E'.
      destruct fs; intros [= _ <-]; lia.
    - now intros [= _ <-]. }
  destruct (match expect 46%N r1 with Some _ => _ | None => _ end) as [fp r2].
  specialize (Hfrac _ _ eq_refl).
  destruct (PyFloat.take_exponent r2) as [[e r3]|] eqn:E.
  - apply take_exponent_length in E. intros [= _ <-]. simpl. lia.
  - destruct fp; intros [= _ <-]; simpl; lia.
Qed.

Lemma match_number_length (s : str) (v : pyval) (r : str) :
  match_number s = Some (v, r) -> length r < length s.
Proof.
  unfold match_number. destruct (expect 45%N s) as [r0|] eqn:E.
  - apply expect_length in E. intros H. apply match_digits_length in H. lia.
  - apply match_digits_length.
Qed.

Lemma scanned_literal (k : nat) (c : char) (s : str) (v v' : pyval) (r : str) :
  Scanned v (skipn (S k) (c :: s)) = Scanned v' r ->
  length r < length (c :: s).
Proof.
  intros [= _ <-]. cbn [skipn]. rewrite length_skipn. simpl. lia.
Qed.

(** With more than [2 * len(s)] steps, scanning a value of [s] does not
    run out of steps and reads at least one character; the loops take
    one step more. *)
Lemma scan_steps (n : nat) :
  (forall s, 2 * length s < n ->
             scan_once n s <> Exhausted
             /\ forall v r, scan_once n s = Scanned v r -> length r < length s)
  /\ (forall d s, 2 * length s + 1 < n ->
                  object_items n d s <> Exhausted
                  /\ forall v r, object_items n d s = Scanned v r ->
                                 length r < length s)
  /\ (forall l s, 2 * length s + 1 < n ->
                  array_items n l s <> Exhausted
                  /\ forall v r, array_items n l s = Scanned v r ->
                                 length r < length s).
Proof.
  induction n as [|n (IHs & IHo & IHa)]; [repeat split; intros; lia|].
  split; [|split].
  - intros s Hn. cbn [scan_once].
    destruct s as [|c r]; [split; [discriminate|intros; discriminate]|].
    simpl in Hn.
    destruct (c =? 34)%N.
    { destruct (scanstring r) as [[k r']|] eqn:E;
        [|split; [discriminate|intros; discriminate]].
      apply scanstring_length in E.
      split; [discriminate|]. intros v r0 [= _ <-]. simpl. lia. }
    pose proof (skip_ws_length r) as Hws.
    destruct (c =? 123)%N.
    { destruct (expect 125%N (skip_ws r)) as [r'|] eqn:E.
      - apply expect_length in E.
        split; [discriminate|]. intros v r0 [= _ <-]. simpl. lia.
      - destruct (IHo [] (skip_ws r)) as [Hne Hlen]; [lia|].
        split; [exact Hne|]. intros v r0 H. apply Hlen in H. simpl. lia. }
    destruct (c =? 91)%N.
    { destruct (expect 93%N (skip_ws r)) as [r'|] eqn:E.
      - apply expect_length in E.
        split; [discriminate|]. intros v r0 [= _ <-]. simpl. lia.
      - destruct (IHa [] (skip_ws r)) as [Hne Hlen]; [lia|].
        split; [exact Hne|]. intros v r0 H. apply Hlen in H. simpl. lia. }
    repeat match goal with
           | |- context [if startswith ?p ?x then _ else _] =>
             destruct (startswith p x);
               [split; [discriminate|];
                intros v r0 H; eapply scanned_literal; exact H|]
           end.
    destruct (match_number (c :: r)) as [[v' r']|] eqn:E;
      [|split; [discriminate|intros; discriminate]].
    apply match_number_length in E.
    split; [discriminate|]. now intros v r0 [= _ <-].
  - intros d s Hn. cbn [object_items].
    destruct (expect 34%N s) as [r|] eqn:E1;
      [|split; [discriminate|intros; discriminate]].
    apply expect_length in E1.
    destruct (scanstring r) as [[k r1]|] eqn:E2;
      [|split; [discriminate|intros; discriminate]].
    apply scanstring_length in E2.
    pose proof (skip_ws_length r1) as Hws1.
    destruct (expect 58%N (skip_ws r1)) as [r2|] eqn:E3;
      [|split; [discriminate|intros; discriminate]].
    apply expect_length in E3.
    pose proof (skip_ws_length r2) as Hws2.
    destruct (IHs (skip_ws r2)) as [Hne Hlen]; [lia|].
    destruct (scan_once n (skip_ws r2)) as [v r3| |];
      [|split; [discriminate|intros; discriminate]|congruence].
    specialize (Hlen _ _ eq_refl).
    pose proof (skip_ws_length r3) as Hws3.
    destruct (expect 125%N (skip_ws r3)) as [r4|] eqn:E4.
    { apply expect_length in E4.
      split; [discriminate|]. intros v0 r0 [= _ <-]. lia. }
    destruct (expect 44%N (skip_ws r3)) as [r4|] eqn:E5;
      [|split; [discriminate|intros; discriminate]].
    apply expect_length in E5.
    pose proof (skip_ws_length r4) as Hws4.
    destruct (IHo (dict_set d k v) (skip_ws r4)) as [Hne' Hlen']; [lia|].
    split; [exact Hne'|]. intros v0 r0 H. apply Hlen' in H. lia.
  - intros l s Hn. cbn [array_items].
    destruct (IHs s) as [Hne Hlen]; [lia|].
    destruct (scan_once n s) as [v r1| |];
      [|split; [discriminate|intros; discriminate]|congruence].
    specialize (Hlen _ _ eq_refl).
    pose proof (skip_ws_length r1) as Hws1.
    destruct (expect 93%N (skip_ws r1)) as [r2|] eqn:E2.
    { apply expect_length in E2.
      split; [discriminate|]. intros v0 r0 [= _ <-]. lia. }
    destruct (expect 44%N (skip_ws r1)) as [r2|] eqn:E3;
      [|split; [discriminate|intros; discriminate]].
    apply expect_length in E3.
    pose proof (skip_ws_length r2) as Hws2.
    destruct (IHa (l ++ [v]) (skip_ws r2)) as [Hne' Hlen']; [lia|].
    split; [exact Hne'|]. intros v0 r0 H. apply Hlen' in H. lia.
Qed.

(** [loads] never runs out of steps: its decoding errors are those of
    the text. *)
Theorem loads_enough_steps (s : str) :
  scan_once (2 * length s + 1) (skip_ws s) <> Exhausted.
Proof.
  apply (proj1 (scan_steps (2 * length s + 1))).
  pose proof (skip_ws_length s). lia.
Qed.

(** [split] finds every occurrence: allowing more than [len(s)] splits
    changes nothing. *)
Lemma split_max_enough (sep : str) (n : nat) (s : str) :
  sep <> [] -> length s <= n -> split_max n sep s = split sep s.
Proof.
  intros Hsep. unfold split.
  assert (G : forall m k t, length t <= m -> length t <= k ->
                            split_max m sep t = split_max k sep t).
  { induction m as [|m IH]; intros k t Hm Hk.
    - destruct t; [|simpl in Hm; lia].
      destruct k; [reflexivity|]. cbn [split_max].
      destruct (cut sep []) as [[a b]|] eqn:E; [|reflexivity].
      apply cut_length in E. destruct sep; [congruence|]. simpl in E. lia.
    - destruct k.
      + destruct t; [|simpl in Hk; lia]. cbn [split_max].
        destruct (cut sep []) as [[a b]|] eqn:E; [|reflexivity].
        apply cut_length in E. destruct sep; [congruence|]. simpl in E. lia.
      + cbn [split_max]. destruct (cut sep t) as [[a b]|] eqn:E; [|reflexivity].
        apply cut_length in E. f_equal.
        destruct sep; [congruence|]. simpl in E. apply IH; lia. }
  intros Hn. now apply G.
Qed.

End JsonFacts.

Section Properties.

Variable unicode_decimal : char -> option N.
Variable py_repr : pyval -> str.
Variable OPEN_UI_API_KEY : option str.
Variable TAVILY_API_KEY : option str.
Variable requests_post : str -> list (str * str) -> pyval -> result Response.
Variable tavily_get_search_context : option str -> str -> result pyval.

(** The literal [0.7] is the binary64 number [6305039478318694 / 2^53],
    which lies within half a unit in the last place of [7/10]. *)
Lemma float_0_7_value :
  float_0_7 = S754_finite false 6305039478318694 (-53)
  /\ (2 * Z.abs (7 * 2 ^ 53 - 10 * 6305039478318694) <= 10)%Z.
Proof. split; [reflexivity | vm_compute; discriminate]. Qed.

(** [chat_request] makes one POST to the endpoint and then only reads
    the response: status check, JSON decoding, extraction. *)
Lemma chat_request_run (endpoint model system_prompt user_message : str)
      (max_tokens : Z) :
  exists headers payload,
    chat_request OPEN_UI_API_KEY (Some endpoint) requests_post
      model system_prompt user_message max_tokens =
    ([HttpPost endpoint headers payload],
     let? response := requests_post endpoint headers payload in
     let? _ := Requests.raise_for_status response in
     let? data := Requests.json response in
     choice_content data).
Proof.
  unfold chat_request.
  match goal with |- context [post _ ?u ?h ?p] => exists h, p end.
  unfold post, bind.
  destruct (requests_post _ _ _) as [response|e]; [|reflexivity].
  cbn [rbind]. unfold try_except, lift.
  destruct (Requests.raise_for_status response) as [[]|e] eqn:E.
  - cbn [rbind]. destruct (Requests.json response); reflexivity.
  - unfold Requests.raise_for_status in E.
    destruct (_ && _)%bool; [|discriminate].
    injection E as <-. reflexivity.
Qed.

(** Without a configured endpoint the membership test on [None] raises
    before anything is sent. *)
Lemma chat_request_unconfigured (model system_prompt user_message : str)
      (max_tokens : Z) :
  chat_request OPEN_UI_API_KEY None requests_post model system_prompt
               user_message max_tokens
  = ([], Raise TypeError).
Proof. reflexivity. Qed.

(** What [assess_confidence] answers once the transport has returned. *)
Lemma assess_confidence_verdict (endpoint : option str) (response : str)
      (t : list call) (evaluation : pyval) :
  chat_request OPEN_UI_API_KEY endpoint requests_post (lit "gpt-4-turbo")
               assess_confidence_system_prompt
               (lit "Response to evaluate: " ++ response) 512
  = (t, Ok evaluation) ->
  assess_confidence unicode_decimal py_repr OPEN_UI_API_KEY endpoint
                    requests_post response false
  = (t, Ok (verdict unicode_decimal py_repr evaluation)).
Proof.
  intros H. unfold assess_confidence, verdict. rewrite H.
  cbn [bind lift].
  destruct (assess_confidence_clean py_repr evaluation) as [cleaned|e];
    [|now io_simpl].
  destruct cleaned as [| | | |text| |]; try now io_simpl.
  destruct (strict_extraction unicode_decimal text) as [[answer|]|e];
    try now io_simpl.
  destruct (is_JSONDecodeError_or_KeyError e) eqn:E;
    [|io_simpl; rewrite E; now io_simpl].
  destruct (manual_extraction unicode_decimal text) as [[answer|]|e'];
    io_simpl; rewrite E; now io_simpl.
Qed.

(** [assess_confidence] never raises: a failure of the transport or of
    any later step gives [False]. *)
Lemma assess_confidence_total (endpoint : option str) (response : str)
      (dry_run : bool) :
  exists answer,
    outcome (assess_confidence unicode_decimal py_repr OPEN_UI_API_KEY
               endpoint requests_post response dry_run) = Ok answer.
Proof.
  destruct dry_run; [now exists true|].
  destruct (chat_request OPEN_UI_API_KEY endpoint requests_post
              (lit "gpt-4-turbo") assess_confidence_system_prompt
              (lit "Response to evaluate: " ++ response) 512)
    as [t [evaluation|e]] eqn:H.
  - rewrite (assess_confidence_verdict _ _ H). now eexists.
  - unfold assess_confidence. rewrite H. now exists false.
Qed.

(** The answer for a cleaned output that is JSON with a
    [confidence_score] that can be made a float. *)
Lemma verdict_strict (evaluation : pyval) (text : str) (parsed score : pyval)
      (confidence_score : PyFloat.float) :
  assess_confidence_clean py_repr evaluation = Ok (PStr text) ->
  Json.loads text = Ok parsed ->
  getitem parsed (KStr (lit "confidence_score")) = Ok score ->
  py_float unicode_decimal score = Ok confidence_score ->
  verdict unicode_decimal py_repr evaluation
  = PyFloat.gt confidence_score float_0_7.
Proof.
  intros Hc Hl Hs Hf. unfold verdict, strict_extraction.
  now rewrite Hc, Hl; cbn [rbind]; rewrite Hs; cbn [rbind]; rewrite Hf.
Qed.

(** [assess_confidence] takes the text between the first [text='] and
    the next [',] when the first [text='] is the one of the marker, no
    other follows it, and no [',] comes before the closing one. *)
Lemma assess_confidence_clean_wrapped (before inner after : str) :
  contains (lit "text='") (before ++ lit "TextBlock(text=") = false ->
  contains (lit "text='") (inner ++ lit "'," ++ after) = false ->
  contains (lit "',") inner = false ->
  assess_confidence_clean py_repr
    (PStr (before ++ lit "TextBlock(text='" ++ inner ++ lit "'," ++ after))
  = Ok (PStr inner).
Proof.
  intros Hb Hi Hq.
  unfold assess_confidence_clean, assess_confidence_unwrap.
  cbn [rbind]. unfold assess_confidence_extract. cbn [py_str].
  assert (Hm : contains (lit "TextBlock(text=")
                 (before ++ lit "TextBlock(text='" ++ inner ++ lit "'," ++ after)
               = true).
  { clear. induction before as [|c before IH]; [reflexivity|].
    change ((c :: before) ++ ?x) with (c :: (before ++ x)).
    cbn [contains]. rewrite IH. apply orb_true_r. }
  rewrite Hm.
  assert (Hcut : cut (lit "text='")
                   (before ++ lit "TextBlock(text='" ++ inner ++ lit "'," ++ after)
                 = Some (before ++ lit "TextBlock(", inner ++ lit "'," ++ after)).
  { change (lit "TextBlock(text='" ++ inner ++ lit "'," ++ after)
      with (lit "TextBlock(" ++ lit "text='" ++ inner ++ lit "'," ++ after).
    rewrite app_assoc. apply cut_first.
    rewrite <- app_assoc. exact Hb. }
  assert (Hopen : lit "text='" <> []) by (vm_compute; congruence).
  assert (Hclose : lit "'," <> []) by (vm_compute; congruence).
  rewrite (split_item_1 _ Hopen Hcut (cut_absent _ _ Hi)).
  cbn [rbind].
  assert (Hcut' : cut (lit "',") (inner ++ lit "'," ++ after)
                  = Some (inner, after)).
  { apply cut_first.
    apply (contains_pair_snoc (a:=39%N) (b:=44%N)); [discriminate|exact Hq]. }
  now rewrite (split_item_0 _ Hclose Hcut').
Qed.

(** [synthesize_information] takes the text between the first [text=']
    and the last [')] of an output that starts with the marker. *)
Lemma synthesize_information_clean_wrapped (inner : str) :
  synthesize_information_clean py_repr
    (PStr (lit "TextBlock(text='" ++ inner ++ lit "')"))
  = Ok (PStr inner).
Proof.
  unfold synthesize_information_clean, synthesize_information_unwrap.
  cbn [rbind]. unfold synthesize_information_extract.
  change (lit "TextBlock(text='" ++ inner ++ lit "')")
    with (lit "TextBlock(" ++ lit "text='" ++ inner ++ lit "')").
  rewrite startswith_app.
  cbn [split_max]. rewrite cut_first by reflexivity.
  cbn [list_item nth_error or_raise rbind].
  unfold rsplit1. rewrite rcut_last; [reflexivity|].
  intros E; vm_compute in E; discriminate E.
Qed.

(** Neither clean-up touches text that does not hold [TextBlock(]. *)
Lemma clean_plain_text (text : str) :
  contains (lit "TextBlock(") text = false ->
  assess_confidence_clean py_repr (PStr text) = Ok (PStr text)
  /\ synthesize_information_clean py_repr (PStr text) = Ok (PStr text).
Proof.
  intros H. split.
  - unfold assess_confidence_clean, assess_confidence_unwrap.
    cbn [rbind]. unfold assess_confidence_extract. cbn [py_str].
    change (lit "TextBlock(text=") with (lit "TextBlock(" ++ lit "text=").
    now rewrite contains_prefix.
  - unfold synthesize_information_clean, synthesize_information_unwrap.
    cbn [rbind]. unfold synthesize_information_extract.
    now rewrite contains_startswith.
Qed.

(** C1: with a configured endpoint, the payload [chat_request] posts
    holds the model and, when the endpoint contains the minimal-payload
    host, a single user message and nothing else; for any other endpoint
    it holds one system message and one user message, in this order,
    [max_tokens] and a temperature of 0.7. *)
Theorem C1_payload_shape (endpoint model system_prompt user_message : str)
        (max_tokens : Z) :
  exists headers payload,
    calls (chat_request OPEN_UI_API_KEY (Some endpoint) requests_post
      model system_prompt user_message max_tokens)
    = [HttpPost endpoint headers payload]
    /\ payload_get payload (lit "model") = Some (PStr model)
    /\ if contains minimal_payload_host endpoint then
         payload_keys payload = [lit "model"; lit "messages"]
         /\ payload_messages payload = [message (lit "user") user_message]
         /\ payload_roles payload = [Some (PStr (lit "user"))]
         /\ payload_get payload (lit "max_tokens") = None
         /\ payload_get payload (lit "temperature") = None
       else
         payload_keys payload
         = [lit "model"; lit "messages"; lit "max_tokens"; lit "temperature"]
         /\ payload_messages payload
            = [message (lit "system") system_prompt;
               message (lit "user") user_message]
         /\ payload_roles payload
            = [Some (PStr (lit "system")); Some (PStr (lit "user"))]
         /\ payload_get payload (lit "max_tokens") = Some (PInt max_tokens)
         /\ payload_get payload (lit "temperature") = Some (PFloat float_0_7).
Proof.
  unfold chat_request.
  match goal with |- context [post _ ?u ?h ?p] => exists h, p end.
  split.
  - unfold post, bind, calls.
    destruct (requests_post _ _ _) as [response|e]; [|reflexivity].
    unfold try_except, lift.
    destruct (Requests.raise_for_status response) as [[]|e];
      [destruct (Requests.json response); reflexivity|].
    destruct (is_HTTPError e); reflexivity.
  - destruct (contains minimal_payload_host endpoint); repeat split.
Qed.

(** C2: with [dry_run] false, [assess_confidence] answers [True] for the
    model output [{"confidence_score": 0.85, "reasoning": "x"}] and
    [False] for the model output [0.5], as it does for a
    [confidence_score] of 0.5 and of 0.7 itself; it answers [False],
    without raising, when the cleaned output is not JSON and does not
    hold ["confidence_score":]; and when the cleaned output is JSON
    whose [confidence_score] can be made a float, the answer is whether
    that float exceeds 0.7. *)
Theorem C2_confidence_decision (endpoint : option str) (response : str)
        (t : list call) (evaluation : pyval) :
  chat_request OPEN_UI_API_KEY endpoint requests_post (lit "gpt-4-turbo")
               assess_confidence_system_prompt
               (lit "Response to evaluate: " ++ response) 512
  = (t, Ok evaluation) ->
  let answer :=
    assess_confidence unicode_decimal py_repr OPEN_UI_API_KEY endpoint
                      requests_post response false in
  (evaluation = PStr Example.score_first -> answer = (t, Ok true))
  /\ (evaluation = PStr (lit "0.5") -> answer = (t, Ok false))
  /\ (evaluation = PStr Example.score_half -> answer = (t, Ok false))
  /\ (evaluation = PStr Example.score_threshold -> answer = (t, Ok false))
  /\ (forall text,
         assess_confidence_clean py_repr evaluation = Ok (PStr text) ->
         Json.loads text = Raise JSONDecodeError ->
         contains confidence_score_field text = false ->
         answer = (t, Ok false))
  /\ (forall text parsed score confidence_score,
         assess_confidence_clean py_repr evaluation = Ok (PStr text) ->
         Json.loads text = Ok parsed ->
         getitem parsed (KStr (lit "confidence_score")) = Ok score ->
         py_float unicode_decimal score = Ok confidence_score ->
         answer = (t, Ok (PyFloat.gt confidence_score float_0_7))).
Proof.
  intros H answer. subst answer.
  rewrite (assess_confidence_verdict _ _ H).
  repeat split.
  - intros ->. reflexivity.
  - intros ->. reflexivity.
  - intros ->. reflexivity.
  - intros ->. reflexivity.
  - intros text Hc Hl Hk. unfold verdict, strict_extraction, manual_extraction.
    now rewrite Hc, Hl, Hk.
  - intros text parsed score f Hc Hl Hs Hf.
    now rewrite (verdict_strict _ Hc Hl Hs Hf).
Qed.

(** C3 (amended): each of the four operations that take a [dry_run]
    flag, called with the flag set, makes no outbound call and returns
    its fixed mock value; [chat_request] takes no such flag and, with a
    configured endpoint, always makes exactly one POST. *)
Theorem C3_dry_run_mocks :
  (forall endpoint query context,
      call_rag OPEN_UI_API_KEY endpoint requests_post query context true
      = ([], Ok (PStr (lit "Mock response: This is a dry run response."))))
  /\ (forall query,
      call_tavily_web_search TAVILY_API_KEY tavily_get_search_context query true
      = ([], Ok (PStr (lit "Mock web search response: This is a dry run response."))))
  /\ (forall endpoint response,
      assess_confidence unicode_decimal py_repr OPEN_UI_API_KEY endpoint
                        requests_post response true
      = ([], Ok true))
  /\ (forall endpoint internal_response web_results,
      synthesize_information py_repr OPEN_UI_API_KEY endpoint requests_post
                             internal_response web_results true
      = ([], Ok (PStr (lit "Mock synthesis: This is a dry run synthesis."))))
  /\ (forall endpoint model system_prompt user_message max_tokens,
      exists headers payload,
        calls (chat_request OPEN_UI_API_KEY (Some endpoint) requests_post
                            model system_prompt user_message max_tokens)
        = [HttpPost endpoint headers payload]).
Proof.
  repeat split.
  intros. destruct (chat_request_run endpoint model system_prompt user_message
                                     max_tokens) as (h & p & ->).
  now exists h, p.
Qed.

(** C4 (amended): [synthesize_information] applies the same list-unwrap
    step as [assess_confidence], and both leave text without
    [TextBlock(] as it is; the marker step differs:
    [synthesize_information] takes what lies between the first [text=']
    and the last [')] of an output starting with [TextBlock(], and
    [assess_confidence] what lies between the first [text='] and the
    next [',] of an output holding [TextBlock(text=]. *)
Theorem C4_unwrap_shared_marker_step_differs :
  (forall v : pyval,
      assess_confidence_unwrap py_repr v
      = synthesize_information_unwrap py_repr v)
  /\ (forall text : str,
         contains (lit "TextBlock(") text = false ->
         assess_confidence_clean py_repr (PStr text) = Ok (PStr text)
         /\ synthesize_information_clean py_repr (PStr text) = Ok (PStr text))
  /\ (forall inner : str,
         synthesize_information_clean py_repr
           (PStr (lit "TextBlock(text='" ++ inner ++ lit "')"))
         = Ok (PStr inner))
  /\ (forall before inner after : str,
         contains (lit "text='") (before ++ lit "TextBlock(text=") = false ->
         contains (lit "text='") (inner ++ lit "'," ++ after) = false ->
         contains (lit "',") inner = false ->
         assess_confidence_clean py_repr
           (PStr (before ++ lit "TextBlock(text='" ++ inner ++ lit "',"
                  ++ after))
         = Ok (PStr inner)).
Proof.
  split; [reflexivity|]. split; [exact clean_plain_text|].
  split; [exact synthesize_information_clean_wrapped|].
  exact assess_confidence_clean_wrapped.
Qed.

(** C5 (amended): [chat_request] raises the [HTTPError] of the response,
    which carries the status code and the body, for every response with
    a status from 400 to 599, and does not catch it; for any other
    status, 2xx or not, it goes on to decode the body. It returns
    normally only for a response with a status outside 400 to 599 from
    whose body [choices[0].message.content] can be taken. *)
Theorem C5_http_error_propagates (endpoint model system_prompt user_message : str)
        (max_tokens : Z) (url : str) (headers : list (str * str))
        (payload : pyval) (response : Response) :
  let run := chat_request OPEN_UI_API_KEY (Some endpoint) requests_post
                          model system_prompt user_message max_tokens in
  calls run = [HttpPost url headers payload] ->
  requests_post url headers payload = Ok response ->
  ((400 <= status_code response < 600)%Z ->
   outcome run = Raise (HTTPError response))
  /\ (~ (400 <= status_code response < 600)%Z ->
      outcome run = (let? data := Requests.json response in
                     choice_content data))
  /\ (forall answer : pyval,
         outcome run = Ok answer ->
         ~ (400 <= status_code response < 600)%Z
         /\ exists data, Requests.json response = Ok data
                         /\ choice_content data = Ok answer).
Proof.
  intros run Hcalls Hpost. subst run.
  destruct (chat_request_run endpoint model system_prompt user_message
                             max_tokens) as (h & p & E).
  rewrite E in *. cbn [calls outcome fst snd] in *.
  injection Hcalls as <- <- <-. rewrite Hpost. cbn [rbind].
  unfold Requests.raise_for_status.
  destruct ((400 <=? status_code response) && (status_code response <? 600))%Z
    eqn:B.
  - apply andb_true_iff in B as [B1 B2].
    apply Z.leb_le in B1. apply Z.ltb_lt in B2.
    split; [reflexivity|]. split; [intros N; lia|].
    intros answer Ha. discriminate Ha.
  - assert (N : ~ (400 <= status_code response < 600)%Z).
    { intros [N1 N2]. apply Z.leb_le in N1. apply Z.ltb_lt in N2.
      now rewrite N1, N2 in B. }
    cbn [rbind].
    split; [intros N'; contradiction|]. split; [reflexivity|].
    intros answer Ha.
    destruct (Requests.json response) as [data|e]; [|discriminate].
    split; [exact N|]. now exists data.
Qed.

(** C6: with [dry_run] false, [call_rag] returns what [chat_request]
    returns, and the empty string when [chat_request] raises;
    [call_tavily_web_search] returns what the search client returns, and
    the empty string when the client raises. Neither raises. *)
Theorem C6_failures_become_empty_string :
  (forall endpoint query context,
      outcome (call_rag OPEN_UI_API_KEY endpoint requests_post query context
                        false)
      = match outcome (chat_request OPEN_UI_API_KEY endpoint requests_post
                         (lit "gpt-4-turbo") (call_rag_system_prompt context)
                         query 512) with
        | Ok answer => Ok answer
        | Raise _ => Ok (PStr [])
        end)
  /\ (forall query,
      outcome (call_tavily_web_search TAVILY_API_KEY tavily_get_search_context
                                      query false)
      = match tavily_get_search_context TAVILY_API_KEY query with
        | Ok context => Ok context
        | Raise _ => Ok (PStr [])
        end).
Proof.
  split.
  - intros. unfold call_rag.
    destruct (chat_request _ _ _ _ _ _ _) as [t [answer|e]]; reflexivity.
  - intros. unfold call_tavily_web_search, get_search_context.
    destruct (tavily_get_search_context _ _) as [context|e]; reflexivity.
Qed.

(** C7: with [dry_run] false, [synthesize_information] returns the
    literal ["Error synthesizing information"] whenever the transport or
    the clean-up of its answer raises, and the cleaned answer otherwise;
    it never raises. *)
Theorem C7_synthesis_error_literal (endpoint : option str)
        (internal_response web_results : str) :
  outcome (synthesize_information py_repr OPEN_UI_API_KEY endpoint
             requests_post internal_response web_results false)
  = match outcome (chat_request OPEN_UI_API_KEY endpoint requests_post
                     (lit "gpt-4-turbo") synthesize_information_system_prompt
                     (lit "Internal Knowledge: " ++ internal_response
                      ++ [10%N; 10%N] ++ lit "Web Results: " ++ web_results)
                     512) with
    | Raise _ => Ok (PStr (lit "Error synthesizing information"))
    | Ok response =>
      match synthesize_information_clean py_repr response with
      | Raise _ => Ok (PStr (lit "Error synthesizing information"))
      | Ok cleaned => Ok cleaned
      end
    end.
Proof.
  unfold synthesize_information, synthesize_information_body.
  destruct (chat_request _ _ _ _ _ _ _) as [t [response|e]]; [|reflexivity].
  cbn [bind lift outcome snd].
  destruct (synthesize_information_clean py_repr response); reflexivity.
Qed.

(** C8 (amended): when the model output holds the marker as
    [TextBlock(text='<json>',...], the first [text='] of the output is
    the marker's and no other follows, and [<json>] holds no [',], then
    [assess_confidence] parses exactly [<json>] and, for JSON whose
    [confidence_score] can be made a float, answers whether that float
    exceeds 0.7. *)
Theorem C8_wrapped_json_decision (endpoint : option str) (response : str)
        (t : list call) (before inner after : str) (parsed score : pyval)
        (confidence_score : PyFloat.float) :
  chat_request OPEN_UI_API_KEY endpoint requests_post (lit "gpt-4-turbo")
               assess_confidence_system_prompt
               (lit "Response to evaluate: " ++ response) 512
  = (t, Ok (PStr (before ++ lit "TextBlock(text='" ++ inner ++ lit "',"
                  ++ after))) ->
  contains (lit "text='") (before ++ lit "TextBlock(text=") = false ->
  contains (lit "text='") (inner ++ lit "'," ++ after) = false ->
  contains (lit "',") inner = false ->
  Json.loads inner = Ok parsed ->
  getitem parsed (KStr (lit "confidence_score")) = Ok score ->
  py_float unicode_decimal score = Ok confidence_score ->
  assess_confidence_clean py_repr
    (PStr (before ++ lit "TextBlock(text='" ++ inner ++ lit "'," ++ after))
  = Ok (PStr inner)
  /\ assess_confidence unicode_decimal py_repr OPEN_UI_API_KEY endpoint
                       requests_post response false
     = (t, Ok (PyFloat.gt confidence_score float_0_7)).
Proof.
  intros H Hb Hi Hq Hl Hs Hf.
  pose proof (assess_confidence_clean_wrapped _ _ _ Hb Hi Hq) as Hc.
  split; [exact Hc|].
  rewrite (assess_confidence_verdict _ _ H).
  now rewrite (verdict_strict _ Hc Hl Hs Hf).
Qed.

(** C9: with [dry_run] false, when [chat_request] returns a value,
    [call_rag] makes the same call and returns that value as it is. *)
Theorem C9_call_rag_returns_unchanged (endpoint : option str)
        (query context : str) (t : list call) (answer : pyval) :
  chat_request OPEN_UI_API_KEY endpoint requests_post (lit "gpt-4-turbo")
               (call_rag_system_prompt context) query 512
  = (t, Ok answer) ->
  call_rag OPEN_UI_API_KEY endpoint requests_post query context false
  = (t, Ok answer).
Proof.
  intros H. unfold call_rag. rewrite H. cbn.
  now rewrite app_nil_r.
Qed.

(** C10: the model output [Score: {"confidence_score": 0.95}] is not
    JSON and holds ["confidence_score":]; the text sliced out for the
    score is [0.95}], since no comma follows the number; [float] raises
    [ValueError] on it, although [0.95] exceeds 0.7; the fall-back
    raises, and [assess_confidence] answers [False]. *)
Theorem C10_score_without_comma :
  Json.loads Example.score_before_brace = Raise JSONDecodeError
  /\ contains confidence_score_field Example.score_before_brace = true
  /\ (let? after := list_item (split confidence_score_field
                                     Example.score_before_brace) 1 in
      let? before_comma := list_item (split (lit ",") after) 0 in
      Ok (strip before_comma)) = Ok (lit "0.95}")
  /\ PyFloat.of_str unicode_decimal (lit "0.95}") = None
  /\ (exists score, PyFloat.of_str unicode_decimal (lit "0.95") = Some score
                    /\ PyFloat.gt score float_0_7 = true)
  /\ manual_extraction unicode_decimal Example.score_before_brace
     = Raise ValueError
  /\ forall (endpoint : option str) (response : str) (t : list call),
      chat_request OPEN_UI_API_KEY endpoint requests_post (lit "gpt-4-turbo")
                   assess_confidence_system_prompt
                   (lit "Response to evaluate: " ++ response) 512
      = (t, Ok (PStr Example.score_before_brace)) ->
      assess_confidence unicode_decimal py_repr OPEN_UI_API_KEY endpoint
                        requests_post response false
      = (t, Ok false).
Proof.
  repeat split.
  - eexists. split; reflexivity.
  - intros endpoint response t H.
    now rewrite (assess_confidence_verdict _ _ H).
Qed.

End Properties.

(* ================================================================= *)
(** ** The properties at concrete inputs *)

Import Example.

(** C2 at the model output [{"confidence_score": 0.85, "reasoning": "x"}]. *)
Lemma C2_witness :
  assessment_request score_first
  = (calls (assessment_request score_first), Ok (PStr score_first))
  /\ assess_confidence unicode_decimal py_repr api_key (Some standard_endpoint)
                       (answering 200 score_first) draft false
     = (calls (assessment_request score_first), Ok true).
Proof.
  assert (H : assessment_request score_first
              = (calls (assessment_request score_first), Ok (PStr score_first)))
    by (vm_compute; reflexivity).
  split; [exact H|].
  exact (proj1 (C2_confidence_decision unicode_decimal py_repr api_key
                  (answering 200 score_first) (Some standard_endpoint) draft H)
               eq_refl).
Defined.

(** C3: the transport posts even when the endpoint cannot be reached,
    and there is no argument to switch that off. *)
Lemma C3_counterexample_chat_request_posts :
  calls (chat_request api_key (Some standard_endpoint) unreachable
                      (lit "gpt-4-turbo") (lit "You are a helpful assistant.")
                      query 512)
  <> [].
Proof. vm_compute. discriminate. Qed.

(** C4 at a plain answer. *)
Lemma C4_witness :
  contains (lit "TextBlock(") draft = false
  /\ assess_confidence_clean py_repr (PStr draft) = Ok (PStr draft)
  /\ synthesize_information_clean py_repr (PStr draft) = Ok (PStr draft).
Proof.
  assert (H : contains (lit "TextBlock(") draft = false)
    by (vm_compute; reflexivity).
  split; [exact H|].
  exact (proj1 (proj2 (C4_unwrap_shared_marker_step_differs py_repr)) draft H).
Defined.

(** C4: on [TextBlock(text='hello')] one clean-up keeps the closing
    [')] and the other drops it. *)
Lemma C4_counterexample_bare_text_block :
  assess_confidence_clean py_repr (PStr (bare_text_block (lit "hello")))
  = Ok (PStr (lit "hello')"))
  /\ synthesize_information_clean py_repr (PStr (bare_text_block (lit "hello")))
     = Ok (PStr (lit "hello"))
  /\ assess_confidence_clean py_repr (PStr (bare_text_block (lit "hello")))
     <> synthesize_information_clean py_repr
          (PStr (bare_text_block (lit "hello"))).
Proof.
  split; [vm_compute; reflexivity|].
  split; [vm_compute; reflexivity|].
  vm_compute. discriminate.
Qed.

(** C5 at a 404 response. *)
Lemma C5_witness :
  let run := chat_request api_key (Some standard_endpoint)
                          (answering 404 (lit "not found")) (lit "gpt-4-turbo")
                          (lit "You are a helpful assistant.") query 512 in
  let response := {| status_code := 404; text := chat_body (lit "not found") |} in
  (400 <= status_code response < 600)%Z
  /\ outcome run = Raise (HTTPError response).
Proof.
  intros run response.
  assert (B : (400 <= status_code response < 600)%Z) by (simpl; lia).
  split; [exact B|].
  destruct (chat_request_run api_key (answering 404 (lit "not found"))
              standard_endpoint (lit "gpt-4-turbo")
              (lit "You are a helpful assistant.") query 512)
    as (headers & payload & Hrun).
  assert (Hcalls : calls run = [HttpPost standard_endpoint headers payload])
    by (subst run; now rewrite Hrun).
  exact (proj1 (C5_http_error_propagates api_key
                  (answering 404 (lit "not found")) standard_endpoint
                  (lit "gpt-4-turbo") (lit "You are a helpful assistant.")
                  query 512 Hcalls (eq_refl : answering 404 (lit "not found")
                                                standard_endpoint headers payload
                                              = Ok response)) B).
Defined.

(** C5: a response with status 300 and a well-formed body is not in the
    class 2xx, and [chat_request] returns its content. *)
Lemma C5_counterexample_status_300 :
  is_2xx 300 = false
  /\ outcome (chat_request api_key (Some standard_endpoint)
                (answering 300 (lit "Paris")) (lit "gpt-4-turbo")
                (lit "You are a helpful assistant.") query 512)
     = Ok (PStr (lit "Paris")).
Proof. split; vm_compute; reflexivity. Qed.

(** C8 at [[TextBlock(text='{"reasoning": "x", "confidence_score":
    0.85}', type='text')]]. *)
Lemma C8_witness :
  let output := lit "[" ++ lit "TextBlock(text='" ++ score_last ++ lit "',"
                ++ lit " type='text')]" in
  assessment_request output = (calls (assessment_request output), Ok (PStr output))
  /\ contains (lit "text='") (lit "[" ++ lit "TextBlock(text=") = false
  /\ contains (lit "text='") (score_last ++ lit "'," ++ lit " type='text')]")
     = false
  /\ contains (lit "',") score_last = false
  /\ assess_confidence_clean py_repr (PStr output) = Ok (PStr score_last)
  /\ assess_confidence unicode_decimal py_repr api_key (Some standard_endpoint)
                       (answering 200 output) draft false
     = (calls (assessment_request output), Ok true).
Proof.
  intros output.
  assert (H : assessment_request output
              = (calls (assessment_request output), Ok (PStr output)))
    by (vm_compute; reflexivity).
  assert (Hb : contains (lit "text='") (lit "[" ++ lit "TextBlock(text=") = false)
    by (vm_compute; reflexivity).
  assert (Hi : contains (lit "text='")
                 (score_last ++ lit "'," ++ lit " type='text')]") = false)
    by (vm_compute; reflexivity).
  assert (Hq : contains (lit "',") score_last = false)
    by (vm_compute; reflexivity).
  pose (score := PyFloat.of_decimal false 85 (-2)).
  pose (parsed := PDict [(lit "reasoning", PStr (lit "x"));
                         (lit "confidence_score", PFloat score)]).
  assert (Hl : Json.loads score_last = Ok parsed) by (vm_compute; reflexivity).
  assert (Hs : getitem parsed (KStr (lit "confidence_score")) = Ok (PFloat score))
    by (vm_compute; reflexivity).
  assert (Hf : py_float unicode_decimal (PFloat score) = Ok score)
    by reflexivity.
  pose proof (C8_wrapped_json_decision unicode_decimal py_repr api_key
                (answering 200 output) (Some standard_endpoint) draft
                (lit "[") score_last (lit " type='text')]")
                H Hb Hi Hq Hl Hs Hf) as [Hc Ha].
  repeat split; assumption.
Defined.

(** C8: a wrapper closed by [')] alone, and a wrapper around JSON that
    holds [',], both turn an answer of [True] into [False]. *)
Lemma C8_counterexample_wrapper_changes_answer :
  strict_extraction unicode_decimal score_last = Ok (Some true)
  /\ outcome (assess_confidence unicode_decimal py_repr api_key
                (Some standard_endpoint)
                (answering 200 (bare_text_block score_last)) draft false)
     = Ok false
  /\ strict_extraction unicode_decimal quoted_reasoning = Ok (Some true)
  /\ outcome (assess_confidence unicode_decimal py_repr api_key
                (Some standard_endpoint)
                (answering 200 (text_block quoted_reasoning)) draft false)
     = Ok false.
Proof. repeat split; vm_compute; reflexivity. Qed.

(** C9 at an endpoint that answers [Paris]. *)
Lemma C9_witness :
  let run := chat_request api_key (Some standard_endpoint)
                          (answering 200 (lit "Paris")) (lit "gpt-4-turbo")
                          (call_rag_system_prompt context) query 512 in
  run = (calls run, Ok (PStr (lit "Paris")))
  /\ call_rag api_key (Some standard_endpoint) (answering 200 (lit "Paris"))
              query context false
     = (calls run, Ok (PStr (lit "Paris"))).
Proof.
  intros run.
  assert (H : run = (calls run, Ok (PStr (lit "Paris"))))
    by (vm_compute; reflexivity).
  split; [exact H|].
  exact (C9_call_rag_returns_unchanged api_key (answering 200 (lit "Paris"))
           (Some standard_endpoint) query context H).
Defined.

(** C10 at an endpoint that answers [Score: {"confidence_score": 0.95}]. *)
Lemma C10_witness :
  assessment_request score_before_brace
  = (calls (assessment_request score_before_brace),
     Ok (PStr score_before_brace))
  /\ assess_confidence unicode_decimal py_repr api_key (Some standard_endpoint)
                       (answering 200 score_before_brace) draft false
     = (calls (assessment_request score_before_brace), Ok false).
Proof.
  assert (H : assessment_request score_before_brace
              = (calls (assessment_request score_before_brace),
                 Ok (PStr score_before_brace)))
    by (vm_compute; reflexivity).
  split; [exact H|].
  destruct (C10_score_without_comma unicode_decimal py_repr api_key
              (answering 200 score_before_brace))
    as (_ & _ & _ & _ & _ & _ & Hfalse).
  exact (Hfalse (Some standard_endpoint) draft _ H).
Defined.

(* ================================================================= *)
(** ** Further facts about the string methods *)

Section MoreStrFacts.

Lemma cut_found (sep s a b : str) :
  cut sep s = Some (a, b) -> contains sep s = true.
Proof.
  intros H. destruct (contains sep s) eqn:E; [reflexivity|].
  apply cut_absent in E. congruence.
Qed.

(** A character that [sep] does not hold ends any occurrence of [sep]. *)
Lemma startswith_stops (sep u v : str) (c : char) :
  ~ In c sep -> startswith sep (u ++ c :: v) = startswith sep u.
Proof.
  revert u; induction sep as [|x sep IH]; intros u Hc; [reflexivity|].
  destruct u as [|y u]; cbn [app startswith].
  - destruct (N.eqb_spec x c) as [->|]; [|reflexivity].
    exfalso. apply Hc. now left.
  - rewrite IH; [reflexivity|]. intros Hin. apply Hc. now right.
Qed.

(** No occurrence of [sep] crosses a character that [sep] does not hold. *)
Lemma cut_across (sep u v : str) (c : char) :
  ~ In c sep -> sep <> [] -> cut sep u = None ->
  cut sep (u ++ c :: v) =
  match cut sep v with
  | Some (a, b) => Some (u ++ c :: a, b)
  | None => None
  end.
Proof.
  intros Hc Hsep. induction u as [|y u IH]; intros Hu.
  - pose proof (@startswith_stops sep [] v c Hc) as E.
    cbn [app] in *. cbn [cut]. rewrite E.
    destruct sep as [|x sep]; [congruence|]. cbn [startswith].
    now destruct (cut (x :: sep) v) as [[a b]|].
  - cbn [cut] in Hu.
    destruct (startswith sep (y :: u)) eqn:E; [discriminate|].
    destruct (cut sep u) as [[a b]|] eqn:E'; [discriminate|].
    change ((y :: u) ++ c :: v) with (y :: (u ++ c :: v)).
    cbn [cut].
    change (y :: (u ++ c :: v)) with ((y :: u) ++ c :: v).
    rewrite startswith_stops by exact Hc.
    rewrite E, (IH eq_refl).
    now destruct (cut sep v) as [[a b]|].
Qed.

(** [s.split(sep)[1]] when [sep] occurs: what lies between its first
    and its second occurrence, or after the first when there is no
    other. *)
Lemma split_item_1_next (sep s a b : str) :
  sep <> [] -> cut sep s = Some (a, b) ->
  list_item (split sep s) 1
  = Ok match cut sep b with
       | Some (a', _) => a'
       | None => b
       end.
Proof.
  intros Hsep H. unfold list_item, split.
  pose proof (cut_length _ _ H) as L.
  destruct (length s) as [|n] eqn:E.
  - destruct sep; [congruence|]. simpl in L. lia.
  - cbn [split_max]. rewrite H.
    change (nth_error (a :: split_max n sep b) 1)
      with (nth_error (split_max n sep b) 0).
    rewrite split_max_head. cbn [or_raise].
    destruct (cut sep b) as [[a' b']|] eqn:E'; [|now destruct n].
    apply cut_length in E'.
    destruct n; [|reflexivity].
    destruct sep; [congruence|]. simpl in *. lia.
Qed.

(** [s.split(sep)[1]] when [sep] does not occur. *)
Lemma split_item_1_absent (sep s : str) :
  cut sep s = None -> list_item (split sep s) 1 = Raise IndexError.
Proof. intros H. unfold list_item. now rewrite split_absent. Qed.

End MoreStrFacts.

(* ================================================================= *)
(** ** Further properties of [utils.py] *)

Section Further.

Variable unicode_decimal : char -> option N.
Variable py_repr : pyval -> str.
Variable OPEN_UI_API_KEY : option str.
Variable TAVILY_API_KEY : option str.
Variable requests_post : str -> list (str * str) -> pyval -> result Response.
Variable tavily_get_search_context : option str -> str -> result pyval.

(** What [synthesize_information] returns once the transport has
    returned. *)
Lemma synthesize_information_after (endpoint : option str)
      (internal_response web_results : str) (t : list call) (response : pyval) :
  chat_request OPEN_UI_API_KEY endpoint requests_post (lit "gpt-4-turbo")
               synthesize_information_system_prompt
               (lit "Internal Knowledge: " ++ internal_response
                ++ [10%N; 10%N] ++ lit "Web Results: " ++ web_results) 512
  = (t, Ok response) ->
  synthesize_information py_repr OPEN_UI_API_KEY endpoint requests_post
                         internal_response web_results false
  = (t, match synthesize_information_clean py_repr response with
        | Ok cleaned => Ok cleaned
        | Raise _ => Ok (PStr (lit "Error synthesizing information"))
        end).
Proof.
  intros H. unfold synthesize_information, synthesize_information_body.
  rewrite H. cbn [bind lift].
  destruct (synthesize_information_clean py_repr response); now io_simpl.
Qed.

(** The calls of [call_rag] are those of its transport call. *)
Lemma call_rag_calls (endpoint : option str) (query context : str) :
  calls (call_rag OPEN_UI_API_KEY endpoint requests_post query context false)
  = calls (chat_request OPEN_UI_API_KEY endpoint requests_post
             (lit "gpt-4-turbo") (call_rag_system_prompt context) query 512).
Proof.
  unfold call_rag.
  destruct (chat_request _ _ _ _ _ _ _) as [t [answer|e]]; now io_simpl.
Qed.

(** The calls of [assess_confidence] are those of its transport call. *)
Lemma assess_confidence_calls (endpoint : option str) (response : str) :
  calls (assess_confidence unicode_decimal py_repr OPEN_UI_API_KEY endpoint
                           requests_post response false)
  = calls (chat_request OPEN_UI_API_KEY endpoint requests_post
             (lit "gpt-4-turbo") assess_confidence_system_prompt
             (lit "Response to evaluate: " ++ response) 512).
Proof.
  destruct (chat_request OPEN_UI_API_KEY endpoint requests_post
              (lit "gpt-4-turbo") assess_confidence_system_prompt
              (lit "Response to evaluate: " ++ response) 512)
    as [t [evaluation|e]] eqn:H.
  - now rewrite (assess_confidence_verdict unicode_decimal py_repr
                   OPEN_UI_API_KEY requests_post _ _ H).
  - unfold assess_confidence. rewrite H. now io_simpl.
Qed.

(** The calls of [synthesize_information] are those of its transport
    call. *)
Lemma synthesize_information_calls (endpoint : option str)
      (internal_response web_results : str) :
  calls (synthesize_information py_repr OPEN_UI_API_KEY endpoint requests_post
                                internal_response web_results false)
  = calls (chat_request OPEN_UI_API_KEY endpoint requests_post
             (lit "gpt-4-turbo") synthesize_information_system_prompt
             (lit "Internal Knowledge: " ++ internal_response
              ++ [10%N; 10%N] ++ lit "Web Results: " ++ web_results) 512).
Proof.
  destruct (chat_request OPEN_UI_API_KEY endpoint requests_post
              (lit "gpt-4-turbo") synthesize_information_system_prompt
              (lit "Internal Knowledge: " ++ internal_response
               ++ [10%N; 10%N] ++ lit "Web Results: " ++ web_results) 512)
    as [t [response|e]] eqn:H.
  - now rewrite (synthesize_information_after _ _ _ H).
  - unfold synthesize_information, synthesize_information_body.
    rewrite H. now io_simpl.
Qed.

(** The request of the transport at an endpoint that does not contain
    the minimal-payload host. *)
Lemma chat_request_standard (endpoint model system_prompt user_message : str)
      (max_tokens : Z) :
  contains minimal_payload_host endpoint = false ->
  exists headers,
    calls (chat_request OPEN_UI_API_KEY (Some endpoint) requests_post model
                        system_prompt user_message max_tokens)
    = [HttpPost endpoint headers
         (PDict [(lit "model", PStr model);
                 (lit "messages",
                  PList [message (lit "system") system_prompt;
                         message (lit "user") user_message]);
                 (lit "max_tokens", PInt max_tokens);
                 (lit "temperature", PFloat float_0_7)])].
Proof.
  intros H. unfold chat_request. rewrite H.
  match goal with |- context [post _ ?u ?h ?p] => exists h end.
  unfold post, bind, calls.
  destruct (requests_post _ _ _) as [response|e]; [|reflexivity].
  unfold try_except, lift.
  destruct (Requests.raise_for_status response) as [[]|e];
    [destruct (Requests.json response); reflexivity|].
  destruct (is_HTTPError e); reflexivity.
Qed.

(** X1: when the endpoint variable is not set, [chat_request] raises
    [TypeError] before anything is sent, and the wrappers hide it:
    [call_rag] returns the empty string, [assess_confidence] [False] and
    [synthesize_information] its error literal, none with any outbound
    call. *)
Theorem X1_unset_endpoint_sends_nothing :
  (forall model system_prompt user_message max_tokens,
      chat_request OPEN_UI_API_KEY None requests_post model system_prompt
                   user_message max_tokens
      = ([], Raise TypeError))
  /\ (forall query context,
         call_rag OPEN_UI_API_KEY None requests_post query context false
         = ([], Ok (PStr [])))
  /\ (forall response,
         assess_confidence unicode_decimal py_repr OPEN_UI_API_KEY None
                           requests_post response false
         = ([], Ok false))
  /\ (forall internal_response web_results,
         synthesize_information py_repr OPEN_UI_API_KEY None requests_post
                                internal_response web_results false
         = ([], Ok (PStr (lit "Error synthesizing information")))).
Proof. repeat split. Qed.

(** X2: no operation retries. With [dry_run] false each wrapper makes
    exactly the outbound calls of its one transport call, whatever the
    outcome; the transport makes at most one POST; the web search makes
    one call to the search client with the key of the environment and
    the query. *)
Theorem X2_single_round_trip :
  (forall endpoint model system_prompt user_message max_tokens,
      length (calls (chat_request OPEN_UI_API_KEY endpoint requests_post model
                                  system_prompt user_message max_tokens)) <= 1)
  /\ (forall endpoint query context,
         calls (call_rag OPEN_UI_API_KEY endpoint requests_post query context
                         false)
         = calls (chat_request OPEN_UI_API_KEY endpoint requests_post
                    (lit "gpt-4-turbo") (call_rag_system_prompt context)
                    query 512))
  /\ (forall endpoint response,
         calls (assess_confidence unicode_decimal py_repr OPEN_UI_API_KEY
                                  endpoint requests_post response false)
         = calls (chat_request OPEN_UI_API_KEY endpoint requests_post
                    (lit "gpt-4-turbo") assess_confidence_system_prompt
                    (lit "Response to evaluate: " ++ response) 512))
  /\ (forall endpoint internal_response web_results,
         calls (synthesize_information py_repr OPEN_UI_API_KEY endpoint
                  requests_post internal_response web_results false)
         = calls (chat_request OPEN_UI_API_KEY endpoint requests_post
                    (lit "gpt-4-turbo") synthesize_information_system_prompt
                    (lit "Internal Knowledge: " ++ internal_response
                     ++ [10%N; 10%N] ++ lit "Web Results: " ++ web_results)
                    512))
  /\ (forall query,
         calls (call_tavily_web_search TAVILY_API_KEY tavily_get_search_context
                                       query false)
         = [SearchContext TAVILY_API_KEY query]).
Proof.
  split; [|split; [|split; [|split]]].
  - intros [endpoint|] model system_prompt user_message max_tokens.
    + destruct (chat_request_run OPEN_UI_API_KEY requests_post endpoint model
                  system_prompt user_message max_tokens) as (h & p & ->).
      simpl. lia.
    + simpl. lia.
  - intros. apply call_rag_calls.
  - intros. apply assess_confidence_calls.
  - intros. apply synthesize_information_calls.
  - intros. unfold call_tavily_web_search, get_search_context.
    destruct (tavily_get_search_context _ _); now io_simpl.
Qed.

(** X3: [chat_request] lets every failure of its one round trip through
    unchanged. An exception of the POST itself is raised as it is; for a
    response whose status is not an error, a body that is not JSON
    raises [JSONDecodeError], a JSON value that is not an object raises
    [TypeError], an object without [choices] raises [KeyError], and an
    empty [choices] list raises [IndexError]. *)
Theorem X3_transport_failures_propagate
        (endpoint model system_prompt user_message : str) (max_tokens : Z)
        (url : str) (headers : list (str * str)) (payload : pyval) :
  let run := chat_request OPEN_UI_API_KEY (Some endpoint) requests_post
                          model system_prompt user_message max_tokens in
  calls run = [HttpPost url headers payload] ->
  (forall e, requests_post url headers payload = Raise e ->
             outcome run = Raise e)
  /\ (forall response,
         requests_post url headers payload = Ok response ->
         ~ (400 <= status_code response < 600)%Z ->
         (forall e, Json.loads (text response) = Raise e ->
                    outcome run = Raise e)
         /\ (forall data, Json.loads (text response) = Ok data ->
                          (forall d, data <> PDict d) ->
                          outcome run = Raise TypeError)
         /\ (forall d, Json.loads (text response) = Ok (PDict d) ->
                       dict_get d (lit "choices") = None ->
                       outcome run = Raise KeyError)
         /\ (forall d, Json.loads (text response) = Ok (PDict d) ->
                       dict_get d (lit "choices") = Some (PList []) ->
                       outcome run = Raise IndexError)).
Proof.
  intros run Hcalls. subst run.
  destruct (chat_request_run OPEN_UI_API_KEY requests_post endpoint model
              system_prompt user_message max_tokens) as (h & p & E).
  rewrite E in *. cbn [calls outcome fst snd] in *.
  injection Hcalls as <- <- <-.
  split.
  - intros e He. now rewrite He.
  - intros response Hr Hs. rewrite Hr. cbn [rbind].
    unfold Requests.raise_for_status.
    destruct ((400 <=? status_code response) && (status_code response <? 600))%Z
      eqn:B.
    { apply andb_true_iff in B as [B1 B2].
      apply Z.leb_le in B1. apply Z.ltb_lt in B2. lia. }
    cbn [rbind]. unfold Requests.json.
    split; [|split; [|split]].
    + intros e He. now rewrite He.
    + intros data Hd Hn. rewrite Hd. cbn [rbind]. unfold choice_content.
      destruct data; try reflexivity. now destruct (Hn d).
    + intros d Hd Hc. rewrite Hd. cbn [rbind]. unfold choice_content.
      cbn [getitem]. now rewrite Hc.
    + intros d Hd Hc. rewrite Hd. cbn [rbind]. unfold choice_content.
      cbn [getitem]. now rewrite Hc.
Qed.

(** X4: every POST goes to the configured endpoint with the same two
    headers, [Authorization: Bearer <key>] and [Content-Type:
    application/json]; when the key variable is not set the header reads
    [Bearer None]. *)
Theorem X4_request_headers (endpoint model system_prompt user_message : str)
        (max_tokens : Z) :
  exists payload,
    calls (chat_request OPEN_UI_API_KEY (Some endpoint) requests_post model
                        system_prompt user_message max_tokens)
    = [HttpPost endpoint
         [(lit "Authorization",
           match OPEN_UI_API_KEY with
           | Some api_key => lit "Bearer " ++ api_key
           | None => lit "Bearer None"
           end);
          (lit "Content-Type", lit "application/json")]
         payload].
Proof.
  unfold chat_request.
  match goal with |- context [post _ ?u ?h ?p] => exists p end.
  replace (match OPEN_UI_API_KEY with
           | Some api_key => lit "Bearer " ++ api_key
           | None => lit "Bearer None"
           end)
    with (lit "Bearer " ++ format_opt OPEN_UI_API_KEY)
    by now destruct OPEN_UI_API_KEY.
  unfold post, bind, calls.
  destruct (requests_post _ _ _) as [response|e]; [|reflexivity].
  unfold try_except, lift.
  destruct (Requests.raise_for_status response) as [[]|e];
    [destruct (Requests.json response); reflexivity|].
  destruct (is_HTTPError e); reflexivity.
Qed.

(** X5: [assess_confidence] always returns a boolean, whatever is sent
    back and whatever [dry_run] is; when the transport raises, the
    boolean is [False]. *)
Theorem X5_assess_confidence_always_answers (endpoint : option str)
        (response : str) :
  (forall dry_run, exists answer,
      outcome (assess_confidence unicode_decimal py_repr OPEN_UI_API_KEY
                 endpoint requests_post response dry_run) = Ok answer)
  /\ (forall e,
         outcome (chat_request OPEN_UI_API_KEY endpoint requests_post
                    (lit "gpt-4-turbo") assess_confidence_system_prompt
                    (lit "Response to evaluate: " ++ response) 512)
         = Raise e ->
         outcome (assess_confidence unicode_decimal py_repr OPEN_UI_API_KEY
                    endpoint requests_post response false) = Ok false).
Proof.
  split.
  - intros dry_run. apply assess_confidence_total.
  - intros e. unfold assess_confidence.
    destruct (chat_request _ _ _ _ _ _ _) as [t [evaluation|e']];
      [discriminate|]. reflexivity.
Qed.

(** X6: at an endpoint that contains the minimal-payload host, the
    system prompt and [max_tokens] do not reach the request, so
    [call_rag] makes the same call and gives the same answer whatever
    its context is. *)
Theorem X6_minimal_endpoint_drops_context (endpoint : str) :
  contains minimal_payload_host endpoint = true ->
  (forall model prompt1 prompt2 user_message tokens1 tokens2,
      chat_request OPEN_UI_API_KEY (Some endpoint) requests_post model prompt1
                   user_message tokens1
      = chat_request OPEN_UI_API_KEY (Some endpoint) requests_post model
                     prompt2 user_message tokens2)
  /\ (forall query context1 context2,
         call_rag OPEN_UI_API_KEY (Some endpoint) requests_post query context1
                  false
         = call_rag OPEN_UI_API_KEY (Some endpoint) requests_post query
                    context2 false).
Proof.
  intros H.
  assert (G : forall model prompt1 prompt2 user_message tokens1 tokens2,
             chat_request OPEN_UI_API_KEY (Some endpoint) requests_post model
                          prompt1 user_message tokens1
             = chat_request OPEN_UI_API_KEY (Some endpoint) requests_post model
                            prompt2 user_message tokens2).
  { intros. unfold chat_request. now rewrite H. }
  split; [exact G|].
  intros. unfold call_rag.
  now rewrite (G _ (call_rag_system_prompt context1)
                 (call_rag_system_prompt context2) _ 512%Z 512%Z).
Qed.

(** X7: at any other endpoint, [call_rag] posts the model
    [gpt-4-turbo], a system message that ends with the context, word for
    word, and a line feed, the query as user message, 512 tokens and the
    temperature 0.7. *)
Theorem X7_call_rag_request (endpoint query context : str) :
  contains minimal_payload_host endpoint = false ->
  exists headers preamble,
    calls (call_rag OPEN_UI_API_KEY (Some endpoint) requests_post query context
                    false)
    = [HttpPost endpoint headers
         (PDict [(lit "model", PStr (lit "gpt-4-turbo"));
                 (lit "messages",
                  PList [message (lit "system")
                                 (preamble ++ context ++ [10%N]);
                         message (lit "user") query]);
                 (lit "max_tokens", PInt 512);
                 (lit "temperature", PFloat float_0_7)])]
    /\ forall other, call_rag_system_prompt other = preamble ++ other ++ [10%N].
Proof.
  intros H.
  assert (P : forall other,
             call_rag_system_prompt other
             = (lit "You are a helpful assistant that answers questions based on the provided context. "
                ++ [10%N]
                ++ lit "If the context doesn't contain enough information to answer confidently, indicate that."
                ++ [10%N] ++ [10%N] ++ lit "Context:" ++ [10%N])
               ++ other ++ [10%N]).
  { intros other. unfold call_rag_system_prompt, text_lines.
    cbn [List.map concat]. rewrite app_nil_r.
    now rewrite <- !app_assoc. }
  destruct (chat_request_standard endpoint (lit "gpt-4-turbo")
              (call_rag_system_prompt context) query 512 H) as [headers E].
  eexists headers, _. split; [|exact P].
  now rewrite call_rag_calls, E, P.
Qed.

(** The field literal holds no comma and is not empty. *)
Lemma confidence_score_field_facts :
  ~ In 44%N confidence_score_field /\ confidence_score_field <> [].
Proof.
  split.
  - intros H. vm_compute in H.
    repeat match type of H with
           | _ \/ _ => destruct H as [H|H]; [discriminate H|]
           end.
    exact H.
  - intros E. vm_compute in E. discriminate E.
Qed.

(** [s.split(",")[0]] when [s] starts with comma-free text and a comma. *)
Lemma split_comma_head (score after : str) :
  contains (lit ",") score = false ->
  list_item (split (lit ",") (score ++ 44%N :: after)) 0 = Ok score.
Proof.
  intros H.
  assert (Hne : lit "," <> []) by (intros E; vm_compute in E; discriminate E).
  apply (@split_item_0 (lit ",") (score ++ 44%N :: after) score after Hne).
  apply (@cut_first (lit ",") score after).
  change (firstn (length (lit ",") - 1) (lit ",")) with (@nil char).
  now rewrite app_nil_r.
Qed.

(** X8: the fall-back of [assess_confidence] takes what follows the first
    ["confidence_score":] of the text. When that is comma-free text, a
    comma and more, it reads the text before the comma: the result is
    whether [float] of it, stripped, exceeds 0.7, and a [ValueError]
    when [float] refuses it. When no comma follows at all, it reads
    everything to the end of the text, in the same way. *)
Theorem X8_manual_extraction_reads_to_comma (text before : str) :
  (forall score after,
      cut confidence_score_field text = Some (before, score ++ lit "," ++ after) ->
      contains confidence_score_field score = false ->
      contains (lit ",") score = false ->
      manual_extraction unicode_decimal text
      = match PyFloat.of_str unicode_decimal (strip score) with
        | Some confidence_score =>
          Ok (Some (PyFloat.gt confidence_score float_0_7))
        | None => Raise ValueError
        end)
  /\ (forall rest,
         cut confidence_score_field text = Some (before, rest) ->
         contains confidence_score_field rest = false ->
         contains (lit ",") rest = false ->
         manual_extraction unicode_decimal text
         = match PyFloat.of_str unicode_decimal (strip rest) with
           | Some confidence_score =>
             Ok (Some (PyFloat.gt confidence_score float_0_7))
           | None => Raise ValueError
           end).
Proof.
  destruct confidence_score_field_facts as [Hcomma Hne].
  split.
  - intros score after H Hs Hc. unfold manual_extraction.
    rewrite (@cut_found _ _ _ _ H), (@split_item_1_next _ _ _ _ Hne H).
    cbn [rbind].
    pose proof (@cut_across _ score after _ Hcomma Hne (cut_absent _ _ Hs))
      as E.
    match type of E with
    | ?l = _ =>
      change (cut confidence_score_field (score ++ lit "," ++ after)) with l
    end.
    rewrite E.
    destruct (cut confidence_score_field after) as [[a b]|];
      match goal with
      | |- context [list_item (split (lit ",") ?x) 0] =>
        assert (E2 : list_item (split (lit ",") x) 0 = Ok score)
          by exact (@split_comma_head score _ Hc);
        rewrite E2
      end;
      cbn [rbind];
      now destruct (PyFloat.of_str unicode_decimal (strip score)).
  - intros rest H Hs Hc. unfold manual_extraction.
    rewrite (@cut_found _ _ _ _ H), (@split_item_1_next _ _ _ _ Hne H).
    cbn [rbind].
    rewrite (cut_absent _ _ Hs).
    unfold list_item at 1. rewrite (split_absent _ _ (cut_absent _ _ Hc)).
    cbn [nth_error or_raise rbind].
    now destruct (PyFloat.of_str unicode_decimal (strip rest)).
Qed.

(** X9: the fall-back is tried not only when the cleaned output is not
    JSON, but also when it is a JSON object without a
    [confidence_score] key; in both cases the answer is that of the
    fall-back, and [False] when the fall-back finds nothing or raises. *)
Theorem X9_fallback_on_decode_or_key_error (endpoint : option str)
        (response : str) (t : list call) (evaluation : pyval) (text : str) :
  chat_request OPEN_UI_API_KEY endpoint requests_post (lit "gpt-4-turbo")
               assess_confidence_system_prompt
               (lit "Response to evaluate: " ++ response) 512
  = (t, Ok evaluation) ->
  assess_confidence_clean py_repr evaluation = Ok (PStr text) ->
  (Json.loads text = Raise JSONDecodeError
   \/ exists d, Json.loads text = Ok (PDict d)
                /\ dict_get d (lit "confidence_score") = None) ->
  assess_confidence unicode_decimal py_repr OPEN_UI_API_KEY endpoint
                    requests_post response false
  = (t, Ok match manual_extraction unicode_decimal text with
           | Ok (Some answer) => answer
           | Ok None | Raise _ => false
           end).
Proof.
  intros H Hc Hl.
  rewrite (assess_confidence_verdict unicode_decimal py_repr OPEN_UI_API_KEY
             requests_post _ _ H).
  unfold verdict, strict_extraction. rewrite Hc.
  destruct Hl as [Hl|(d & Hl & Hk)]; rewrite Hl; cbn [rbind getitem];
    [|rewrite Hk]; reflexivity.
Qed.

(** X10: a cleaned output that is JSON but not an object (a list, a
    string, a number, [true], [false] or [null]) gives [False]: the
    subscript raises [TypeError], and the fall-back is not tried even
    when the text holds ["confidence_score":]. *)
Theorem X10_json_that_is_no_object (endpoint : option str) (response : str)
        (t : list call) (evaluation : pyval) (text : str) (parsed : pyval) :
  chat_request OPEN_UI_API_KEY endpoint requests_post (lit "gpt-4-turbo")
               assess_confidence_system_prompt
               (lit "Response to evaluate: " ++ response) 512
  = (t, Ok evaluation) ->
  assess_confidence_clean py_repr evaluation = Ok (PStr text) ->
  Json.loads text = Ok parsed ->
  (forall d, parsed <> PDict d) ->
  assess_confidence unicode_decimal py_repr OPEN_UI_API_KEY endpoint
                    requests_post response false
  = (t, Ok false).
Proof.
  intros H Hc Hl Hn.
  rewrite (assess_confidence_verdict unicode_decimal py_repr OPEN_UI_API_KEY
             requests_post _ _ H).
  unfold verdict, strict_extraction. rewrite Hc, Hl. cbn [rbind].
  destruct parsed; try reflexivity. now destruct (Hn d).
Qed.

(** [float] raises neither [JSONDecodeError] nor [KeyError]. *)
Lemma py_float_error (score : pyval) (e : exn) :
  py_float unicode_decimal score = Raise e ->
  is_JSONDecodeError_or_KeyError e = false.
Proof.
  destruct score; cbn [py_float or_raise]; try (intros [= <-]; reflexivity);
    try discriminate.
  - destruct (PyFloat.of_int n); [discriminate|]. now intros [= <-].
  - destruct (PyFloat.of_str unicode_decimal s); [discriminate|].
    now intros [= <-].
Qed.

(** X11: for a cleaned output that is a JSON object with a
    [confidence_score], the answer is whether [float] of the score
    exceeds 0.7, and [False] when [float] raises; so [null], a list or
    an object as score give [False], [true] gives [True] and [false]
    gives [False]. *)
Theorem X11_score_coercion (endpoint : option str) (response : str)
        (t : list call) (evaluation : pyval) (text : str)
        (d : list (str * pyval)) (score : pyval) :
  chat_request OPEN_UI_API_KEY endpoint requests_post (lit "gpt-4-turbo")
               assess_confidence_system_prompt
               (lit "Response to evaluate: " ++ response) 512
  = (t, Ok evaluation) ->
  assess_confidence_clean py_repr evaluation = Ok (PStr text) ->
  Json.loads text = Ok (PDict d) ->
  dict_get d (lit "confidence_score") = Some score ->
  let answer :=
    assess_confidence unicode_decimal py_repr OPEN_UI_API_KEY endpoint
                      requests_post response false in
  answer = (t, Ok match py_float unicode_decimal score with
                  | Ok confidence_score =>
                    PyFloat.gt confidence_score float_0_7
                  | Raise _ => false
                  end)
  /\ (score = PNone -> answer = (t, Ok false))
  /\ (forall l, score = PList l -> answer = (t, Ok false))
  /\ (forall o, score = PDict o -> answer = (t, Ok false))
  /\ (forall b, score = PBool b -> answer = (t, Ok b)).
Proof.
  intros H Hc Hl Hs answer. subst answer.
  rewrite (assess_confidence_verdict unicode_decimal py_repr OPEN_UI_API_KEY
             requests_post _ _ H).
  unfold verdict, strict_extraction. rewrite Hc, Hl.
  cbn [rbind getitem]. rewrite Hs. cbn [or_raise rbind].
  split.
  - destruct (py_float unicode_decimal score) as [f|e] eqn:E; [reflexivity|].
    cbn [rbind]. now rewrite (py_float_error _ E).
  - repeat split; intros; subst score; try reflexivity.
    now destruct b.
Qed.

(** X12: a marker that is not followed by [text='], as in
    [TextBlock(text="...")], makes the extraction fail with
    [IndexError]: [assess_confidence] answers [False] and
    [synthesize_information] returns its error literal. *)
Theorem X12_marker_without_delimiter (endpoint : option str) (text : str) :
  contains (lit "text='") text = false ->
  (forall response t,
      contains (lit "TextBlock(text=") text = true ->
      chat_request OPEN_UI_API_KEY endpoint requests_post (lit "gpt-4-turbo")
                   assess_confidence_system_prompt
                   (lit "Response to evaluate: " ++ response) 512
      = (t, Ok (PStr text)) ->
      assess_confidence unicode_decimal py_repr OPEN_UI_API_KEY endpoint
                        requests_post response false
      = (t, Ok false))
  /\ (forall internal_response web_results t,
         startswith (lit "TextBlock(") text = true ->
         chat_request OPEN_UI_API_KEY endpoint requests_post
                      (lit "gpt-4-turbo") synthesize_information_system_prompt
                      (lit "Internal Knowledge: " ++ internal_response
                       ++ [10%N; 10%N] ++ lit "Web Results: " ++ web_results)
                      512
         = (t, Ok (PStr text)) ->
         synthesize_information py_repr OPEN_UI_API_KEY endpoint requests_post
                                internal_response web_results false
         = (t, Ok (PStr (lit "Error synthesizing information")))).
Proof.
  intros Hq. pose proof (cut_absent _ _ Hq) as Hcut. split.
  - intros response t Hm H.
    rewrite (assess_confidence_verdict unicode_decimal py_repr OPEN_UI_API_KEY
               requests_post _ _ H).
    unfold verdict, assess_confidence_clean, assess_confidence_unwrap.
    cbn [rbind]. unfold assess_confidence_extract. cbn [py_str].
    now rewrite Hm, (@split_item_1_absent _ _ Hcut).
  - intros internal_response web_results t Hm H.
    rewrite (synthesize_information_after _ _ _ H).
    unfold synthesize_information_clean, synthesize_information_unwrap.
    cbn [rbind]. unfold synthesize_information_extract.
    rewrite Hm. cbn [split_max]. now rewrite Hcut.
Qed.

(** X13: when the transport hands on something that is neither text nor
    a list ([null], a number, a boolean, an object), or an empty list,
    [synthesize_information] returns its error literal; on the empty
    list [assess_confidence] answers [False]. *)
Theorem X13_answer_that_is_no_text (endpoint : option str) :
  (forall internal_response web_results t answer,
      chat_request OPEN_UI_API_KEY endpoint requests_post (lit "gpt-4-turbo")
                   synthesize_information_system_prompt
                   (lit "Internal Knowledge: " ++ internal_response
                    ++ [10%N; 10%N] ++ lit "Web Results: " ++ web_results)
                   512
      = (t, Ok answer) ->
      (forall s, answer <> PStr s) ->
      (forall x l, answer <> PList (x :: l)) ->
      synthesize_information py_repr OPEN_UI_API_KEY endpoint requests_post
                             internal_response web_results false
      = (t, Ok (PStr (lit "Error synthesizing information"))))
  /\ (forall response t,
         chat_request OPEN_UI_API_KEY endpoint requests_post
                      (lit "gpt-4-turbo") assess_confidence_system_prompt
                      (lit "Response to evaluate: " ++ response) 512
         = (t, Ok (PList [])) ->
         assess_confidence unicode_decimal py_repr OPEN_UI_API_KEY endpoint
                           requests_post response false
         = (t, Ok false)).
Proof.
  split.
  - intros internal_response web_results t answer H Hs Hl.
    rewrite (synthesize_information_after _ _ _ H).
    destruct answer as [| | | |s|[|x l]|]; try reflexivity.
    + now destruct (Hs s).
    + now destruct (Hl x l).
  - intros response t H.
    now rewrite (assess_confidence_verdict unicode_decimal py_repr
                   OPEN_UI_API_KEY requests_post _ _ H).
Qed.

(** X14: [synthesize_information] returns text that does not start with
    [TextBlock(] as it is, whether the transport hands it on directly or
    as the [content] of the first element of a list. *)
Theorem X14_synthesis_returns_plain_text (endpoint : option str)
        (internal_response web_results : str) (t : list call)
        (answer : pyval) (text : str) :
  chat_request OPEN_UI_API_KEY endpoint requests_post (lit "gpt-4-turbo")
               synthesize_information_system_prompt
               (lit "Internal Knowledge: " ++ internal_response
                ++ [10%N; 10%N] ++ lit "Web Results: " ++ web_results) 512
  = (t, Ok answer) ->
  (answer = PStr text
   \/ exists d rest, answer = PList (PDict d :: rest)
                     /\ dict_get d (lit "content") = Some (PStr text)) ->
  startswith (lit "TextBlock(") text = false ->
  synthesize_information py_repr OPEN_UI_API_KEY endpoint requests_post
                         internal_response web_results false
  = (t, Ok (PStr text)).
Proof.
  intros H Ha Hm.
  rewrite (synthesize_information_after _ _ _ H).
  unfold synthesize_information_clean, synthesize_information_unwrap.
  destruct Ha as [->|(d & rest & -> & Hd)].
  - cbn [rbind]. unfold synthesize_information_extract. now rewrite Hm.
  - change (getitem (PList (PDict d :: rest)) (KInt 0)) with (Ok (PDict d)).
    cbn [rbind]. rewrite Hd. cbn [rbind].
    unfold synthesize_information_extract. now rewrite Hm.
Qed.

(** X15: on the two-field form [TextBlock(text='<inner>', type='text')]
    [synthesize_information] cuts at the last [')], so it returns
    [<inner>', type='text], with the tail of the wrapper, whatever
    [<inner>] is. *)
Theorem X15_synthesis_keeps_type_field (endpoint : option str)
        (internal_response web_results : str) (t : list call) (inner : str) :
  chat_request OPEN_UI_API_KEY endpoint requests_post (lit "gpt-4-turbo")
               synthesize_information_system_prompt
               (lit "Internal Knowledge: " ++ internal_response
                ++ [10%N; 10%N] ++ lit "Web Results: " ++ web_results) 512
  = (t, Ok (PStr (lit "TextBlock(text='" ++ inner ++ lit "', type='text')"))) ->
  synthesize_information py_repr OPEN_UI_API_KEY endpoint requests_post
                         internal_response web_results false
  = (t, Ok (PStr (inner ++ lit "', type='text"))).
Proof.
  intros H.
  rewrite (synthesize_information_after _ _ _ H).
  change (lit "', type='text')") with (lit "', type='text" ++ lit "')").
  rewrite (app_assoc inner).
  now rewrite (synthesize_information_clean_wrapped py_repr).
Qed.

(** X16: at an endpoint that does not contain the minimal-payload host,
    [assess_confidence] posts its rubric as system message and
    [Response to evaluate: ] followed by the response as user message;
    [synthesize_information] posts its instructions as system message
    and, as user message, [Internal Knowledge: ], the internal response,
    an empty line, [Web Results: ] and the web results. Both ask
    [gpt-4-turbo] for 512 tokens at temperature 0.7. *)
Theorem X16_assessment_and_synthesis_requests (endpoint : str) :
  contains minimal_payload_host endpoint = false ->
  (forall response, exists headers,
      calls (assess_confidence unicode_decimal py_repr OPEN_UI_API_KEY
                               (Some endpoint) requests_post response false)
      = [HttpPost endpoint headers
           (PDict [(lit "model", PStr (lit "gpt-4-turbo"));
                   (lit "messages",
                    PList [message (lit "system")
                                   assess_confidence_system_prompt;
                           message (lit "user")
                                   (lit "Response to evaluate: " ++ response)]);
                   (lit "max_tokens", PInt 512);
                   (lit "temperature", PFloat float_0_7)])])
  /\ (forall internal_response web_results, exists headers,
         calls (synthesize_information py_repr OPEN_UI_API_KEY (Some endpoint)
                  requests_post internal_response web_results false)
         = [HttpPost endpoint headers
              (PDict [(lit "model", PStr (lit "gpt-4-turbo"));
                      (lit "messages",
                       PList [message (lit "system")
                                      synthesize_information_system_prompt;
                              message (lit "user")
                                      (lit "Internal Knowledge: "
                                       ++ internal_response ++ [10%N; 10%N]
                                       ++ lit "Web Results: " ++ web_results)]);
                      (lit "max_tokens", PInt 512);
                      (lit "temperature", PFloat float_0_7)])]).
Proof.
  intros H. split.
  - intros response.
    destruct (chat_request_standard endpoint (lit "gpt-4-turbo")
                assess_confidence_system_prompt
                (lit "Response to evaluate: " ++ response) 512 H)
      as [headers E].
    exists headers. now rewrite assess_confidence_calls.
  - intros internal_response web_results.
    destruct (chat_request_standard endpoint (lit "gpt-4-turbo")
                synthesize_information_system_prompt
                (lit "Internal Knowledge: " ++ internal_response
                 ++ [10%N; 10%N] ++ lit "Web Results: " ++ web_results) 512 H)
      as [headers E].
    exists headers. now rewrite synthesize_information_calls.
Qed.

(** X17: [assess_confidence] answers [True] only on the strength of a
    score: the transport returned, its output was cleaned to text, and a
    float above 0.7 was either the [confidence_score] of that text
    parsed as JSON or read from what follows ["confidence_score":] in
    it, up to the next comma. No failure gives [True]. *)
Theorem X17_true_needs_a_score (endpoint : option str) (response : str) :
  outcome (assess_confidence unicode_decimal py_repr OPEN_UI_API_KEY endpoint
             requests_post response false) = Ok true ->
  exists evaluation text confidence_score,
    outcome (chat_request OPEN_UI_API_KEY endpoint requests_post
               (lit "gpt-4-turbo") assess_confidence_system_prompt
               (lit "Response to evaluate: " ++ response) 512)
    = Ok evaluation
    /\ assess_confidence_clean py_repr evaluation = Ok (PStr text)
    /\ PyFloat.gt confidence_score float_0_7 = true
    /\ ((exists parsed score,
            Json.loads text = Ok parsed
            /\ getitem parsed (KStr (lit "confidence_score")) = Ok score
            /\ py_float unicode_decimal score = Ok confidence_score)
        \/ (contains confidence_score_field text = true
            /\ exists after before_comma,
                list_item (split confidence_score_field text) 1 = Ok after
                /\ list_item (split (lit ",") after) 0 = Ok before_comma
                /\ PyFloat.of_str unicode_decimal (strip before_comma)
                   = Some confidence_score)).
Proof.
  intros Htrue.
  destruct (chat_request OPEN_UI_API_KEY endpoint requests_post
              (lit "gpt-4-turbo") assess_confidence_system_prompt
              (lit "Response to evaluate: " ++ response) 512)
    as [t [evaluation|e]] eqn:H.
  2: { unfold assess_confidence in Htrue. rewrite H in Htrue.
       discriminate Htrue. }
  rewrite (assess_confidence_verdict unicode_decimal py_repr OPEN_UI_API_KEY
             requests_post _ _ H) in Htrue.
  cbn [outcome snd] in Htrue. injection Htrue as Hv. unfold verdict in Hv.
  destruct (assess_confidence_clean py_repr evaluation)
    as [[| | | |text| |]|e] eqn:Hc; try discriminate Hv.
  exists evaluation, text.
  destruct (strict_extraction unicode_decimal text) as [[answer|]|e] eqn:Hs;
    try discriminate Hv.
  - subst answer. unfold strict_extraction in Hs.
    destruct (Json.loads text) as [parsed|e] eqn:Hl;
      cbn [rbind] in Hs; [|discriminate Hs].
    destruct (getitem parsed (KStr (lit "confidence_score")))
      as [score|e] eqn:Hg; cbn [rbind] in Hs; [|discriminate Hs].
    destruct (py_float unicode_decimal score) as [f|e] eqn:Hf;
      cbn [rbind] in Hs; [|discriminate Hs].
    injection Hs as Hs. exists f.
    repeat split; try assumption. left. now exists parsed, score.
  - destruct (is_JSONDecodeError_or_KeyError e); [|discriminate Hv].
    destruct (manual_extraction unicode_decimal text) as [[answer|]|e']
      eqn:Hm; try discriminate Hv.
    subst answer. unfold manual_extraction in Hm.
    destruct (contains confidence_score_field text) eqn:Hk;
      [|discriminate Hm].
    destruct (list_item (split confidence_score_field text) 1)
      as [after|e'] eqn:H1; cbn [rbind] in Hm; [|discriminate Hm].
    destruct (list_item (split (lit ",") after) 0)
      as [before_comma|e'] eqn:H0; cbn [rbind] in Hm; [|discriminate Hm].
    destruct (PyFloat.of_str unicode_decimal (strip before_comma))
      as [f|] eqn:Hf; cbn [or_raise rbind] in Hm; [|discriminate Hm].
    injection Hm as Hm. exists f.
    repeat split; try assumption. right. split; [reflexivity|].
    now exists after, before_comma.
Qed.

End Further.

(* ================================================================= *)
(** ** The further properties at concrete inputs *)

Import Sample.

(** X3 at an endpoint that answers [{"error": "overloaded"}] with
    status 200. *)
Lemma X3_witness :
  let run := transport (replying 200 error_body)
                       (lit "You are a helpful assistant.") query in
  ~ (400 <= 200 < 600)%Z
  /\ Json.loads error_body
     = Ok (PDict [(lit "error", PStr (lit "overloaded"))])
  /\ outcome run = Raise KeyError.
Proof.
  intros run.
  assert (S : ~ (400 <= 200 < 600)%Z) by lia.
  assert (L : Json.loads error_body
              = Ok (PDict [(lit "error", PStr (lit "overloaded"))]))
    by (vm_compute; reflexivity).
  split; [exact S|]. split; [exact L|].
  destruct (chat_request_run api_key (replying 200 error_body)
              standard_endpoint (lit "gpt-4-turbo")
              (lit "You are a helpful assistant.") query 512)
    as (headers & payload & Hrun).
  assert (Hcalls : calls run = [HttpPost standard_endpoint headers payload])
    by (subst run; unfold transport; now rewrite Hrun).
  destruct (X3_transport_failures_propagate api_key (replying 200 error_body)
              standard_endpoint (lit "gpt-4-turbo")
              (lit "You are a helpful assistant.") query 512 Hcalls)
    as [_ Hbody].
  destruct (Hbody {| status_code := 200; text := error_body |} eq_refl S)
    as (_ & _ & Hkey & _).
  exact (Hkey _ L eq_refl).
Defined.

(** X5 at an endpoint that cannot be reached. *)
Lemma X5_witness :
  outcome (assessment unreachable) = Raise (LibraryError "ConnectionError")
  /\ outcome (assess_confidence unicode_decimal py_repr api_key
                (Some standard_endpoint) unreachable draft false)
     = Ok false.
Proof.
  assert (H : outcome (assessment unreachable)
              = Raise (LibraryError "ConnectionError"))
    by (vm_compute; reflexivity).
  split; [exact H|].
  exact (proj2 (X5_assess_confidence_always_answers unicode_decimal py_repr
                  api_key unreachable (Some standard_endpoint) draft) _ H).
Defined.

(** X6 at the minimal-payload endpoint: the context makes no
    difference. *)
Lemma X6_witness :
  contains minimal_payload_host minimal_endpoint = true
  /\ call_rag api_key (Some minimal_endpoint) (answering 200 (lit "Paris"))
              query context false
     = call_rag api_key (Some minimal_endpoint) (answering 200 (lit "Paris"))
                query [] false.
Proof.
  assert (H : contains minimal_payload_host minimal_endpoint = true)
    by (vm_compute; reflexivity).
  split; [exact H|].
  exact (proj2 (X6_minimal_endpoint_drops_context api_key
                  (answering 200 (lit "Paris")) minimal_endpoint H)
               query context []).
Defined.

(** X7 at the standard endpoint. *)
Lemma X7_witness :
  contains minimal_payload_host standard_endpoint = false
  /\ exists headers preamble,
      calls (call_rag api_key (Some standard_endpoint) unreachable query context
                      false)
      = [HttpPost standard_endpoint headers
           (PDict [(lit "model", PStr (lit "gpt-4-turbo"));
                   (lit "messages",
                    PList [message (lit "system")
                                   (preamble ++ context ++ [10%N]);
                           message (lit "user") query]);
                   (lit "max_tokens", PInt 512);
                   (lit "temperature", PFloat float_0_7)])]
      /\ forall other, call_rag_system_prompt other = preamble ++ other ++ [10%N].
Proof.
  assert (H : contains minimal_payload_host standard_endpoint = false)
    by (vm_compute; reflexivity).
  split; [exact H|].
  exact (X7_call_rag_request api_key unreachable standard_endpoint query
                             context H).
Defined.

(** X8 at [Assessment: "confidence_score": 0.9, fairly sure], where a
    comma follows the number, and at [Score: {"confidence_score":
    0.95}], where none does. *)
Lemma X8_witness :
  cut confidence_score_field score_then_comma
  = Some (lit "Assessment: ", lit " 0.9" ++ lit "," ++ lit " fairly sure")
  /\ manual_extraction unicode_decimal score_then_comma = Ok (Some true)
  /\ cut confidence_score_field score_before_brace
     = Some (lit "Score: {", lit " 0.95}")
  /\ manual_extraction unicode_decimal score_before_brace = Raise ValueError.
Proof.
  assert (H1 : cut confidence_score_field score_then_comma
               = Some (lit "Assessment: ",
                       lit " 0.9" ++ lit "," ++ lit " fairly sure"))
    by (vm_compute; reflexivity).
  assert (H2 : cut confidence_score_field score_before_brace
               = Some (lit "Score: {", lit " 0.95}"))
    by (vm_compute; reflexivity).
  split; [exact H1|]. split; [|split; [exact H2|]].
  - exact (proj1 (X8_manual_extraction_reads_to_comma unicode_decimal
                    score_then_comma (lit "Assessment: "))
                 (lit " 0.9") (lit " fairly sure") H1 eq_refl eq_refl).
  - exact (proj2 (X8_manual_extraction_reads_to_comma unicode_decimal
                    score_before_brace (lit "Score: {"))
                 (lit " 0.95}") H2 eq_refl eq_refl).
Defined.

(** X9 at [{"result": {"confidence_score": 0.9, "ok": true}}]: an
    object without the key at its top, answered by the fall-back. *)
Lemma X9_witness :
  assessment (answering 200 nested_score)
  = (calls (assessment (answering 200 nested_score)), Ok (PStr nested_score))
  /\ (exists d, Json.loads nested_score = Ok (PDict d)
                /\ dict_get d (lit "confidence_score") = None)
  /\ assess_confidence unicode_decimal py_repr api_key (Some standard_endpoint)
                       (answering 200 nested_score) draft false
     = (calls (assessment (answering 200 nested_score)), Ok true).
Proof.
  assert (H : assessment (answering 200 nested_score)
              = (calls (assessment (answering 200 nested_score)),
                 Ok (PStr nested_score)))
    by (vm_compute; reflexivity).
  assert (L : exists d, Json.loads nested_score = Ok (PDict d)
                        /\ dict_get d (lit "confidence_score") = None)
    by (eexists; split; vm_compute; reflexivity).
  split; [exact H|]. split; [exact L|].
  exact (X9_fallback_on_decode_or_key_error unicode_decimal py_repr api_key
           (answering 200 nested_score) (Some standard_endpoint) draft
           H eq_refl (or_intror L)).
Defined.

(** X10 at [[{"confidence_score": 0.9, "reasoning": "x"}]]: the
    fall-back would read 0.9, but is not tried. *)
Lemma X10_witness :
  assessment (answering 200 listed_score)
  = (calls (assessment (answering 200 listed_score)), Ok (PStr listed_score))
  /\ manual_extraction unicode_decimal listed_score = Ok (Some true)
  /\ assess_confidence unicode_decimal py_repr api_key (Some standard_endpoint)
                       (answering 200 listed_score) draft false
     = (calls (assessment (answering 200 listed_score)), Ok false).
Proof.
  assert (H : assessment (answering 200 listed_score)
              = (calls (assessment (answering 200 listed_score)),
                 Ok (PStr listed_score)))
    by (vm_compute; reflexivity).
  split; [exact H|]. split; [vm_compute; reflexivity|].
  pose (parsed := PList [PDict [(lit "confidence_score",
                                 PFloat (PyFloat.of_decimal false 9 (-1)));
                                (lit "reasoning", PStr (lit "x"))]]).
  assert (L : Json.loads listed_score = Ok parsed) by (vm_compute; reflexivity).
  assert (N : forall d, parsed <> PDict d) by (intros d; discriminate).
  exact (X10_json_that_is_no_object unicode_decimal py_repr api_key
           (answering 200 listed_score) (Some standard_endpoint) draft
           H eq_refl L N).
Defined.

(** X11 at [{"confidence_score": null}]. *)
Lemma X11_witness :
  assessment (answering 200 null_score)
  = (calls (assessment (answering 200 null_score)), Ok (PStr null_score))
  /\ Json.loads null_score = Ok (PDict [(lit "confidence_score", PNone)])
  /\ assess_confidence unicode_decimal py_repr api_key (Some standard_endpoint)
                       (answering 200 null_score) draft false
     = (calls (assessment (answering 200 null_score)), Ok false).
Proof.
  assert (H : assessment (answering 200 null_score)
              = (calls (assessment (answering 200 null_score)),
                 Ok (PStr null_score)))
    by (vm_compute; reflexivity).
  assert (L : Json.loads null_score
              = Ok (PDict [(lit "confidence_score", PNone)]))
    by (vm_compute; reflexivity).
  split; [exact H|]. split; [exact L|].
  exact (proj1 (proj2 (X11_score_coercion unicode_decimal py_repr api_key
                         (answering 200 null_score) (Some standard_endpoint)
                         draft H eq_refl L eq_refl))
               eq_refl).
Defined.

(** X12 at [TextBlock(text="it's fine")]. *)
Lemma X12_witness :
  contains (lit "text='") double_quoted_block = false
  /\ contains (lit "TextBlock(text=") double_quoted_block = true
  /\ startswith (lit "TextBlock(") double_quoted_block = true
  /\ assess_confidence unicode_decimal py_repr api_key (Some standard_endpoint)
                       (answering 200 double_quoted_block) draft false
     = (calls (assessment (answering 200 double_quoted_block)), Ok false)
  /\ synthesize_information py_repr api_key (Some standard_endpoint)
                            (answering 200 double_quoted_block) draft context
                            false
     = (calls (synthesis (answering 200 double_quoted_block)),
        Ok (PStr (lit "Error synthesizing information"))).
Proof.
  assert (Hq : contains (lit "text='") double_quoted_block = false)
    by (vm_compute; reflexivity).
  assert (Hm : contains (lit "TextBlock(text=") double_quoted_block = true)
    by (vm_compute; reflexivity).
  assert (Hs : startswith (lit "TextBlock(") double_quoted_block = true)
    by (vm_compute; reflexivity).
  assert (Ha : assessment (answering 200 double_quoted_block)
               = (calls (assessment (answering 200 double_quoted_block)),
                  Ok (PStr double_quoted_block)))
    by (vm_compute; reflexivity).
  assert (Hy : synthesis (answering 200 double_quoted_block)
               = (calls (synthesis (answering 200 double_quoted_block)),
                  Ok (PStr double_quoted_block)))
    by (vm_compute; reflexivity).
  destruct (X12_marker_without_delimiter unicode_decimal py_repr api_key
              (answering 200 double_quoted_block) (Some standard_endpoint)
              double_quoted_block Hq) as [Hassess Hsynth].
  split; [exact Hq|]. split; [exact Hm|]. split; [exact Hs|]. split.
  - exact (Hassess draft _ Hm Ha).
  - exact (Hsynth draft context _ Hs Hy).
Defined.

(** X13 at an endpoint whose answer holds [null] as content. *)
Lemma X13_witness :
  synthesis (replying 200 null_content_body)
  = (calls (synthesis (replying 200 null_content_body)), Ok PNone)
  /\ synthesize_information py_repr api_key (Some standard_endpoint)
                            (replying 200 null_content_body) draft context
                            false
     = (calls (synthesis (replying 200 null_content_body)),
        Ok (PStr (lit "Error synthesizing information"))).
Proof.
  assert (H : synthesis (replying 200 null_content_body)
              = (calls (synthesis (replying 200 null_content_body)), Ok PNone))
    by (vm_compute; reflexivity).
  split; [exact H|].
  exact (proj1 (X13_answer_that_is_no_text unicode_decimal py_repr api_key
                  (replying 200 null_content_body) (Some standard_endpoint))
               draft context _ PNone H
               (fun s => ltac:(discriminate))
               (fun x l => ltac:(discriminate))).
Defined.

(** X14 at an endpoint whose answer holds the list
    [[{"type": "text", "content": "Paris"}]] as content. *)
Lemma X14_witness :
  let answer := PList [PDict [(lit "type", PStr (lit "text"));
                              (lit "content", PStr (lit "Paris"))]] in
  synthesis (replying 200 list_content_body)
  = (calls (synthesis (replying 200 list_content_body)), Ok answer)
  /\ startswith (lit "TextBlock(") (lit "Paris") = false
  /\ synthesize_information py_repr api_key (Some standard_endpoint)
                            (replying 200 list_content_body) draft context
                            false
     = (calls (synthesis (replying 200 list_content_body)),
        Ok (PStr (lit "Paris"))).
Proof.
  intros answer.
  assert (H : synthesis (replying 200 list_content_body)
              = (calls (synthesis (replying 200 list_content_body)), Ok answer))
    by (vm_compute; reflexivity).
  assert (Hm : startswith (lit "TextBlock(") (lit "Paris") = false)
    by (vm_compute; reflexivity).
  split; [exact H|]. split; [exact Hm|].
  refine (X14_synthesis_returns_plain_text py_repr api_key
            (replying 200 list_content_body) (Some standard_endpoint)
            draft context H (or_intror _) Hm).
  exists [(lit "type", PStr (lit "text")); (lit "content", PStr (lit "Paris"))],
         [].
  split; reflexivity.
Defined.

(** X15 at [TextBlock(text='Paris', type='text')]. *)
Lemma X15_witness :
  synthesis (answering 200 (text_block (lit "Paris")))
  = (calls (synthesis (answering 200 (text_block (lit "Paris")))),
     Ok (PStr (text_block (lit "Paris"))))
  /\ synthesize_information py_repr api_key (Some standard_endpoint)
                            (answering 200 (text_block (lit "Paris"))) draft
                            context false
     = (calls (synthesis (answering 200 (text_block (lit "Paris")))),
        Ok (PStr (lit "Paris', type='text"))).
Proof.
  assert (H : synthesis (answering 200 (text_block (lit "Paris")))
              = (calls (synthesis (answering 200 (text_block (lit "Paris")))),
                 Ok (PStr (text_block (lit "Paris")))))
    by (vm_compute; reflexivity).
  split; [exact H|].
  exact (X15_synthesis_keeps_type_field py_repr api_key
           (answering 200 (text_block (lit "Paris"))) (Some standard_endpoint)
           draft context (lit "Paris") H).
Defined.

(** X16 at the standard endpoint. *)
Lemma X16_witness :
  contains minimal_payload_host standard_endpoint = false
  /\ exists headers,
      calls (assess_confidence unicode_decimal py_repr api_key
                               (Some standard_endpoint) unreachable draft false)
      = [HttpPost standard_endpoint headers
           (PDict [(lit "model", PStr (lit "gpt-4-turbo"));
                   (lit "messages",
                    PList [message (lit "system")
                                   assess_confidence_system_prompt;
                           message (lit "user")
                                   (lit "Response to evaluate: " ++ draft)]);
                   (lit "max_tokens", PInt 512);
                   (lit "temperature", PFloat float_0_7)])].
Proof.
  assert (H : contains minimal_payload_host standard_endpoint = false)
    by (vm_compute; reflexivity).
  split; [exact H|].
  exact (proj1 (X16_assessment_and_synthesis_requests unicode_decimal py_repr
                  api_key unreachable standard_endpoint H) draft).
Defined.

(** X17 at the model output [{"confidence_score": 0.85, "reasoning":
    "x"}]. *)
Lemma X17_witness :
  outcome (assess_confidence unicode_decimal py_repr api_key
             (Some standard_endpoint) (answering 200 score_first) draft false)
  = Ok true
  /\ exists evaluation text confidence_score,
      outcome (assessment (answering 200 score_first)) = Ok evaluation
      /\ assess_confidence_clean py_repr evaluation = Ok (PStr text)
      /\ PyFloat.gt confidence_score float_0_7 = true
      /\ ((exists parsed score,
              Json.loads text = Ok parsed
              /\ getitem parsed (KStr (lit "confidence_score")) = Ok score
              /\ py_float unicode_decimal score = Ok confidence_score)
          \/ (contains confidence_score_field text = true
              /\ exists after before_comma,
                  list_item (split confidence_score_field text) 1 = Ok after
                  /\ list_item (split (lit ",") after) 0 = Ok before_comma
                  /\ PyFloat.of_str unicode_decimal (strip before_comma)
                     = Some confidence_score)).
Proof.
  assert (H : outcome (assess_confidence unicode_decimal py_repr api_key
                         (Some standard_endpoint) (answering 200 score_first)
                         draft false) = Ok true)
    by (vm_compute; reflexivity).
  split; [exact H|].
  exact (X17_true_needs_a_score unicode_decimal py_repr api_key
           (answering 200 score_first) (Some standard_endpoint) draft H).
Defined.
